(** * Credit-metered generation pipeline of novelapp

    A shallow embedding of the cost estimator ([predictions.py]), the
    generation dispatchers ([api/generation.py]), the overdraft guard and
    the ledger ([helpers.py]) and the Celery workers ([tasks.py]).

    Python floats are IEEE-754 binary64 numbers, so they are modelled by
    Rocq's primitive floats; Python ints are [Z]. *)

From Stdlib Require Import ZArith Floats Bool Ascii Lia.
From stdpp Require Import base list gmap sets strings pretty.

Set Warnings "-inexact-float,-register-all".
#[local] Open Scope Z_scope.

(* ------------------------------------------------------------------ *)
(** ** Python results and numbers *)

(** A Python computation either returns a value or raises an exception,
    which carries [str(e)]. *)
Inductive result (A : Type) : Type :=
| Ok (a : A)
| Err (msg : string).
Arguments Ok {A} a.
Arguments Err {A} msg.

Definition rbind {A B} (m : result A) (f : A -> result B) : result B :=
  match m with Ok a => f a | Err e => Err e end.

Notation "'let!' x := m 'in' k" := (rbind m (fun x => k))
  (at level 200, x name, m at level 100, k at level 200).

(** A Python number: the code mixes ints (token counts, the fallback
    modifier [2]) with floats (the [db.Float] columns). *)
Inductive PyNum :=
| PyInt (z : Z)
| PyFloat (f : float).

Module PyFloatOps.

(** The exact value of a finite float is [(-1)^s * m * 2^e]. *)

(** Round-half-even of the rational [n / 2^k] (k >= 0) to an integer. *)
Definition round_half_even_pow2 (n : Z) (k : Z) : Z :=
  let d := 2 ^ k in
  let q := n / d in
  let r := n mod d in
  match Z.compare (2 * r) d with
  | Lt => q
  | Gt => q + 1
  | Eq => if Z.even q then q else q + 1
  end.

(** Round-half-even of the exact value [m * 2^e] scaled by [c]. *)
Definition round_scaled (c : Z) (m : positive) (e : Z) : Z :=
  if (0 <=? e)%Z then c * Z.pos m * 2 ^ e
  else round_half_even_pow2 (c * Z.pos m) (- e).

(** [float(z)] for a Python int: correctly rounded, [OverflowError]
    beyond the largest double. *)
Definition float_of_Z (z : Z) : result float :=
  match SpecFloat.binary_normalize FloatOps.prec FloatOps.emax z 0 false with
  | SpecFloat.S754_infinity _ => Err "int too large to convert to float"
  | sf => Ok (FloatOps.SF2Prim sf)
  end.

(** Python's float [/]: [ZeroDivisionError] on a zero divisor,
    otherwise IEEE division (overflow gives inf, as in CPython). *)
Definition div (a b : float) : result float :=
  if PrimFloat.eqb b 0%float then Err "float division by zero"
  else Ok (PrimFloat.div a b).

(** [round(x)] for a float: an int, ties to even, [OverflowError] on
    an infinity and [ValueError] on a NaN. *)
Definition round0 (x : float) : result Z :=
  match FloatOps.Prim2SF x with
  | SpecFloat.S754_zero _ => Ok 0
  | SpecFloat.S754_infinity _ => Err "cannot convert float infinity to integer"
  | SpecFloat.S754_nan => Err "cannot convert float NaN to integer"
  | SpecFloat.S754_finite s m e =>
      let r := round_scaled 1 m e in
      Ok (if s then - r else r)
  end.

(** The double nearest to [y / 100] (y an integer, sign [s] kept for
    a zero result), i.e. what CPython's [strtod] returns on the decimal
    string produced by [round(x, 2)]. *)
Definition nearest_div100 (s : bool) (y : Z) : float :=
  match y with
  | Z0 => if s then (-0)%float else 0%float
  | _ =>
    let '(q, e, l) := SpecFloat.SFdiv_core_binary FloatOps.prec FloatOps.emax
                        (Z.abs y) 0 100 0 in
    FloatOps.SF2Prim
      (SpecFloat.binary_round_aux FloatOps.prec FloatOps.emax s q e l)
  end.

(** [round(x, 2)] for a float: the exact value rounded half-even to two
    decimals, then read back as the nearest double; infinities and NaN
    are returned unchanged. *)
Definition round2 (x : float) : float :=
  match FloatOps.Prim2SF x with
  | SpecFloat.S754_finite s m e => nearest_div100 s (round_scaled 100 m e)
  | _ => x
  end.

(** [a * b] for an int [a] and a Python number [b]. *)
Definition mul_int (a : Z) (b : PyNum) : result PyNum :=
  match b with
  | PyInt z => Ok (PyInt (a * z))
  | PyFloat f => let! fa := float_of_Z a in Ok (PyFloat (PrimFloat.mul fa f))
  end.

(** [round(n)] for a Python number ([round] of an int is the int). *)
Definition round_num (n : PyNum) : result Z :=
  match n with
  | PyInt z => Ok z
  | PyFloat f => round0 f
  end.

End PyFloatOps.

(* ------------------------------------------------------------------ *)
(** ** Pricing configuration ([models/TokenCostConfig.py],
    [models/CreditConfig.py]) *)

Record TokenCostConfig := mkTokenCostConfig {
  cost_per_credit : float;
  cost_per_1m_input : float;
  cost_per_1m_output : float;
  o1_cost_per_credit : float;
  o1_cost_per_1m_input : float;
  o1_cost_per_1m_output : float;
  dall_e_price_per_image : float
}.

Record CreditConfig := mkCreditConfig {
  cc_type : string;
  action : string;
  modifier : float
}.

(** The two tables the estimator reads, in row order. *)
Record Pricing := mkPricing {
  token_cost_configs : list TokenCostConfig;
  credit_configs : list CreditConfig
}.

(** [TokenCostConfig.query.first()]. *)
Definition token_cost_config_first (pr : Pricing) : option TokenCostConfig :=
  head (token_cost_configs pr).

(** [config = CreditConfig.query.filter_by(action=a).first()];
    [config.modifier if config else 2]. *)
Definition lookup_modifier (pr : Pricing) (a : string) : PyNum :=
  match List.find (fun c => String.eqb (action c) a) (credit_configs pr) with
  | Some c => PyFloat (modifier c)
  | None => PyInt 2
  end.

(** The two model tiers: ['gpt-4o-mini'] reads the plain columns,
    ['o1-mini'] the [o1_] columns. *)
Inductive Tier := GPT4oMini | O1Mini.

Definition tier_prices (t : Tier) (c : TokenCostConfig) : float * float * float :=
  match t with
  | GPT4oMini => (cost_per_credit c, cost_per_1m_input c, cost_per_1m_output c)
  | O1Mini => (o1_cost_per_credit c, o1_cost_per_1m_input c, o1_cost_per_1m_output c)
  end.

(* ------------------------------------------------------------------ *)
(** ** Cost estimator ([predictions.py]) *)

Section Estimator.
Import PyFloatOps.

(** [round((credit_cost_dollar * 1_000_000) / cost_per_million, 2)] *)
Definition tokens_per_credit (credit_cost_dollar cost_per_million : float) : result float :=
  let! q := div (PrimFloat.mul credit_cost_dollar 1000000%float) cost_per_million in
  Ok (round2 q).

(** [round(tokens / tokens_per_credit)], wrapped in [max(1, ...)] on the
    paths that have it. *)
Definition base_credit_cost (floor : bool) (tokens : Z) (tpc : float) : result Z :=
  let! t := float_of_Z tokens in
  let! q := div t tpc in
  let! r := round0 q in
  Ok (if floor then Z.max 1 r else r).

(** [round(base_credit_cost * modifier)] *)
Definition modified_credit_cost (base : Z) (m : PyNum) : result Z :=
  let! p := mul_int base m in round_num p.

(** The dictionary every text estimator returns; [output_tokens] is the
    [predicted_output_tokens] entry on prediction paths, and
    [total_credit_cost] is [total_predicted_credit_cost] or
    [total_actual_credit_cost]. *)
Record Cost := mkCost {
  input_tokens : Z;
  output_tokens : Z;
  input_tokens_per_credit : float;
  output_tokens_per_credit : float;
  base_credit_cost_input : Z;
  modified_credit_cost_input : Z;
  base_credit_cost_output : Z;
  modified_credit_cost_output : Z;
  total_credit_cost : Z
}.

(** The pricing half of an estimator body, up to the two base costs. *)
Definition base_stage (floor : bool) (tier : Tier) (c : TokenCostConfig)
    (input_token_count output_token_count : Z) : result (float * float * Z * Z) :=
  let '(credit_cost_dollar, cost_per_million_input, cost_per_million_output) :=
    tier_prices tier c in
  let! itpc := tokens_per_credit credit_cost_dollar cost_per_million_input in
  let! otpc := tokens_per_credit credit_cost_dollar cost_per_million_output in
  let! bi := base_credit_cost floor input_token_count itpc in
  let! bo := base_credit_cost floor output_token_count otpc in
  Ok (itpc, otpc, bi, bo).

(** The common body of the ten text estimators: they differ only in the
    tier, the [max(1, ...)] floor, the two [CreditConfig] action names and
    where the output token figure comes from. Reading a field of a missing
    [TokenCostConfig] row raises [AttributeError]. *)
Definition cost_core (floor : bool) (tier : Tier) (in_action out_action : string)
    (pr : Pricing) (input_token_count output_token_count : Z) : result Cost :=
  match token_cost_config_first pr with
  | None => Err "'NoneType' object has no attribute"
  | Some c =>
    let! b := base_stage floor tier c input_token_count output_token_count in
    let '(itpc, otpc, bi, bo) := b in
    let modifier_input := lookup_modifier pr in_action in
    let modifier_output := lookup_modifier pr out_action in
    let! mi := modified_credit_cost bi modifier_input in
    let! mo := modified_credit_cost bo modifier_output in
    Ok (mkCost input_token_count output_token_count itpc otpc bi mi bo mo (mi + mo))
  end.

(** The prompt rendering and [count_tokens] are external: the prediction
    functions take the token count of the rendered prompt, the actual
    functions also the token count of the model output. *)
Definition calculate_predicted_meta_cost (pr : Pricing) (input_token_count : Z) :=
  cost_core true GPT4oMini "meta_input" "meta_output" pr input_token_count 200.
Definition calculate_actual_meta_cost (pr : Pricing) (input_token_count output_token_count : Z) :=
  cost_core true GPT4oMini "meta_input" "meta_output" pr input_token_count output_token_count.
Definition calculate_predicted_summaries_cost (pr : Pricing) (input_token_count chapters_count : Z) :=
  cost_core false O1Mini "summary_input" "summary_output" pr input_token_count (chapters_count * 50).
Definition calculate_actual_summaries_cost (pr : Pricing) (input_token_count output_token_count : Z) :=
  cost_core false O1Mini "summary_input" "summary_output" pr input_token_count output_token_count.
Definition calculate_predicted_story_arcs_cost (pr : Pricing) (input_token_count : Z) :=
  cost_core true O1Mini "arcs_input" "arcs_output" pr input_token_count 250.
Definition calculate_actual_story_arcs_cost (pr : Pricing) (input_token_count output_token_count : Z) :=
  cost_core true O1Mini "arcs_input" "arcs_output" pr input_token_count output_token_count.
Definition calculate_predicted_chapter_guide_cost (pr : Pricing) (input_token_count : Z) :=
  cost_core true O1Mini "chapter_guide_input" "chapter_guide_output" pr input_token_count 250.
Definition calculate_actual_chapter_guide_cost (pr : Pricing) (input_token_count output_token_count : Z) :=
  cost_core true O1Mini "chapter_guide_input" "chapter_guide_output" pr input_token_count output_token_count.
Definition calculate_predicted_chapter_cost (pr : Pricing) (input_token_count : Z) :=
  cost_core false O1Mini "chapter_input" "chapter_output" pr input_token_count 300.
Definition calculate_actual_chapter_cost (pr : Pricing) (input_token_count output_token_count : Z) :=
  cost_core false O1Mini "chapter_input" "chapter_output" pr input_token_count output_token_count.

(** [calculate_predicted_all_chapters_cost]: the sum of the per-chapter
    predictions, one input token count per chapter in chapter order. *)
Fixpoint calculate_predicted_all_chapters_cost (pr : Pricing) (chapter_tokens : list Z) : result Z :=
  match chapter_tokens with
  | [] => Ok 0
  | t :: rest =>
    let! ci := calculate_predicted_chapter_cost pr t in
    let! r := calculate_predicted_all_chapters_cost pr rest in
    Ok (total_credit_cost ci + r)
  end.

Record ImageCost := mkImageCost {
  base_image_credit_cost : float;
  image_modifier : PyNum;
  total_image_credit_cost : float
}.

(** [calculate_image_cost]: [dall_e_price_per_image * modifier], a float. *)
Definition calculate_image_cost (pr : Pricing) : result ImageCost :=
  match token_cost_config_first pr with
  | None => Err "'NoneType' object has no attribute"
  | Some c =>
    let base_credit_cost := dall_e_price_per_image c in
    let m := lookup_modifier pr "image" in
    let total := match m with
                 | PyFloat f => PrimFloat.mul base_credit_cost f
                 | PyInt z => PrimFloat.mul base_credit_cost (FloatOps.SF2Prim
                                (SpecFloat.binary_normalize FloatOps.prec FloatOps.emax z 0 false))
                 end in
    Ok (mkImageCost base_credit_cost m total)
  end.

End Estimator.

(* ------------------------------------------------------------------ *)
(** ** Decoded JSON and the Python operations the workers apply to it *)

Inductive Json :=
| JNull
| JBool (b : bool)
| JNum (n : Z)
| JStr (s : string)
| JArr (l : list Json)
| JObj (kvs : list (string * Json)).

Module PyJson.

(** [d.get(k)] returns the value or [None]; only dicts have [.get]. *)
Definition get (j : Json) (k : string) : result (option Json) :=
  match j with
  | JObj kvs => Ok (option_map snd (List.find (fun kv => String.eqb (fst kv) k) kvs))
  | _ => Err "object has no attribute 'get'"
  end.

(** [d.get(k, default)] *)
Definition get_default (j : Json) (k : string) (d : Json) : result Json :=
  let! o := get j k in Ok (match o with Some v => v | None => d end).

(** [len(x)]; [len(None)] and [len] of a number raise [TypeError]. *)
Definition len (o : option Json) : result nat :=
  match o with
  | Some (JArr l) => Ok (length l)
  | Some (JStr s) => Ok (String.length s)
  | Some (JObj kvs) => Ok (length kvs)
  | _ => Err "object has no len()"
  end.

(** [for x in j]: lists yield their items, dicts their keys, strings
    their characters; anything else raises [TypeError]. *)
Definition iter (j : Json) : result (list Json) :=
  match j with
  | JArr l => Ok l
  | JObj kvs => Ok (map (fun kv => JStr (fst kv)) kvs)
  | JStr s => Ok (map (fun a => JStr (String.String a String.EmptyString)) (String.list_ascii_of_string s))
  | _ => Err "object is not iterable"
  end.

(** [d.items()], only on dicts. *)
Definition items (j : Json) : result (list (string * Json)) :=
  match j with
  | JObj kvs => Ok kvs
  | _ => Err "object has no attribute 'items'"
  end.

End PyJson.

(* ------------------------------------------------------------------ *)
(** ** Persistent data ([models/]) *)

Inductive GenType := GMeta | GStoryArcs | GSummaries | GChapterGuide | GChapter | GImage.

#[global] Instance GenType_eq_dec : EqDecision GenType.
Proof. solve_decision. Defined.

(** The [generation_type] strings stored in [GenerationLog]. *)
Definition gen_type_name (g : GenType) : string :=
  match g with
  | GMeta => "meta" | GStoryArcs => "story_arcs" | GSummaries => "summaries"
  | GChapterGuide => "chapter_guide" | GChapter => "chapter" | GImage => "image"
  end.

Inductive Status := Pending | Succeeded | Failed.

#[global] Instance Status_eq_dec : EqDecision Status.
Proof. solve_decision. Defined.

(** [GenerationLog], the durable job record. *)
Record GenerationLog := mkLog {
  log_id : Z;
  log_user_id : Z;
  task_id : Z;
  generation_type : GenType;
  predicted_cost : option PyNum;
  real_cost : option PyNum;
  status : Status;
  error_message : option string;
  log_model : option string;
  log_input_tokens : Z;
  log_output_tokens : Z
}.

Record User := mkUser {
  user_id : Z;
  text_credits : Z;
  image_credits : Z;
  audio_credits : Z
}.

Record StoryRow := mkStory {
  story_id : Z;
  chapters_count : Z;
  cover_image_key : option string
}.

Record CharacterRow := mkCharacter {
  char_story_id : Z;
  char_name : option Json;
  char_description : option Json;
  char_example_dialogue : option Json
}.

Record LocationRow := mkLocation {
  loc_story_id : Z;
  loc_name : option Json;
  loc_description : option Json
}.

Record StoryArcRow := mkStoryArc {
  arc_story_id : Z;
  arc_text : Json;
  arc_order : Z
}.

Record ChapterRow := mkChapter {
  chapter_id : Z;
  chapter_story_id : Z;
  chapter_number : Z;
  chapter_title : Json;
  chapter_summary : Json;
  chapter_content : option string;
  chapter_image_key : option string
}.

Record ChapterGuideRow := mkChapterGuide {
  guide_story_id : Z;
  guide_chapter_title : string;
  part_index : Json;
  part_text : Json;
  guide_characters : Json;
  guide_locations : Json
}.

(** The relational store. *)
Record DB := mkDB {
  users : gmap Z User;
  logs : list GenerationLog;
  stories : list StoryRow;
  characters : list CharacterRow;
  locations : list LocationRow;
  story_arcs : list StoryArcRow;
  chapters : list ChapterRow;
  chapter_guides : list ChapterGuideRow;
  pricing : Pricing;
  next_row_id : Z
}.

(** Celery tasks as enqueued by [.delay(...)], with the id the broker
    assigned ([task.id], seen by the worker as [request.id]). *)
Inductive Task :=
| TImage (tid sid : Z) (image_key prompt : string) (uid : Z) (credit_cost : PyNum)
         (chapter : option Z)
| TMeta (tid sid : Z) (prompt : string) (uid predicted_input_tokens : Z)
| TStoryArcs (tid sid : Z) (prompt : string) (uid predicted_input_tokens : Z)
| TSummaries (tid sid : Z) (prompt : string) (uid predicted_input_tokens : Z)
| TChapterGuide (tid sid : Z) (prompt : string) (uid predicted_input_tokens : Z)
| TChapter (tid sid : Z) (prompt : string) (chapter_num uid predicted_input_tokens : Z).

(* ------------------------------------------------------------------ *)
(** ** The world the request handlers and workers run in *)

(** [db] is what is committed; [sess] is the SQLAlchemy session's view
    (committed rows plus pending changes; queries autoflush, so they read
    [sess]). [locks] is the Redis key space [generation_lock:{user_id}]
    (a user id is in it iff the key exists). Every call that leaves the
    process (database round trip, OpenAI, HTTP, S3, Socket.IO, the broker)
    is numbered by [clock]; it raises iff its number is in [faults], so a
    fault list stands for an arbitrary pattern of exceptions. *)
Record St := mkSt {
  db : DB;
  sess : DB;
  locks : gset Z;
  queue : list Task;
  next_task_id : Z;
  events : list (Z * string);
  clock : nat;
  faults : list nat
}.

Definition set_sess (d : DB) (s : St) : St :=
  mkSt (db s) d (locks s) (queue s) (next_task_id s) (events s) (clock s) (faults s).
Definition set_db (d : DB) (s : St) : St :=
  mkSt d (sess s) (locks s) (queue s) (next_task_id s) (events s) (clock s) (faults s).
Definition set_locks (l : gset Z) (s : St) : St :=
  mkSt (db s) (sess s) l (queue s) (next_task_id s) (events s) (clock s) (faults s).
Definition tick (s : St) : St :=
  mkSt (db s) (sess s) (locks s) (queue s) (next_task_id s) (events s) (S (clock s)) (faults s).
Definition push_event (e : Z * string) (s : St) : St :=
  mkSt (db s) (sess s) (locks s) (queue s) (next_task_id s) (events s ++ [e]) (clock s) (faults s).
Definition push_task (t : Task) (s : St) : St :=
  mkSt (db s) (sess s) (locks s) (queue s ++ [t]) (Z.succ (next_task_id s)) (events s) (clock s) (faults s).

Definition db_set_users (u : gmap Z User) (d : DB) : DB :=
  mkDB u (logs d) (stories d) (characters d) (locations d) (story_arcs d) (chapters d)
       (chapter_guides d) (pricing d) (next_row_id d).
Definition db_set_logs (l : list GenerationLog) (d : DB) : DB :=
  mkDB (users d) l (stories d) (characters d) (locations d) (story_arcs d) (chapters d)
       (chapter_guides d) (pricing d) (next_row_id d).
Definition db_set_stories (l : list StoryRow) (d : DB) : DB :=
  mkDB (users d) (logs d) l (characters d) (locations d) (story_arcs d) (chapters d)
       (chapter_guides d) (pricing d) (next_row_id d).
Definition db_set_characters (l : list CharacterRow) (d : DB) : DB :=
  mkDB (users d) (logs d) (stories d) l (locations d) (story_arcs d) (chapters d)
       (chapter_guides d) (pricing d) (next_row_id d).
Definition db_set_locations (l : list LocationRow) (d : DB) : DB :=
  mkDB (users d) (logs d) (stories d) (characters d) l (story_arcs d) (chapters d)
       (chapter_guides d) (pricing d) (next_row_id d).
Definition db_set_story_arcs (l : list StoryArcRow) (d : DB) : DB :=
  mkDB (users d) (logs d) (stories d) (characters d) (locations d) l (chapters d)
       (chapter_guides d) (pricing d) (next_row_id d).
Definition db_set_chapters (l : list ChapterRow) (d : DB) : DB :=
  mkDB (users d) (logs d) (stories d) (characters d) (locations d) (story_arcs d) l
       (chapter_guides d) (pricing d) (next_row_id d).
Definition db_set_chapter_guides (l : list ChapterGuideRow) (d : DB) : DB :=
  mkDB (users d) (logs d) (stories d) (characters d) (locations d) (story_arcs d) (chapters d)
       l (pricing d) (next_row_id d).
Definition db_bump_id (d : DB) : DB :=
  mkDB (users d) (logs d) (stories d) (characters d) (locations d) (story_arcs d) (chapters d)
       (chapter_guides d) (pricing d) (Z.succ (next_row_id d)).

(** State and exception monad: a Python statement sequence. *)
Definition M (A : Type) : Type := St -> result A * St.

Definition ret {A} (a : A) : M A := fun s => (Ok a, s).
Definition raise {A} (e : string) : M A := fun s => (Err e, s).
Definition bind {A B} (m : M A) (k : A -> M B) : M B :=
  fun s => match m s with
           | (Ok a, s') => k a s'
           | (Err e, s') => (Err e, s')
           end.
Definition lift {A} (r : result A) : M A := fun s => (r, s).
Definition modify (f : St -> St) : M unit := fun s => (Ok tt, f s).
Definition gets {A} (f : St -> A) : M A := fun s => (Ok (f s), s).

Notation "x <- m ; k" := (bind m (fun x => k))
  (at level 100, m at next level, right associativity, only parsing).
Notation "m ;; k" := (bind m (fun _ => k))
  (at level 100, right associativity, only parsing).

(** [try: m except Exception as e: h(str(e))] *)
Definition try_except {A} (m : M A) (h : string -> M A) : M A :=
  fun s => match m s with
           | (Ok a, s') => (Ok a, s')
           | (Err e, s') => h e s'
           end.

(** [try: m finally: f] -- [f] runs on both exits; an exception raised by
    [f] replaces the outcome of [m]. *)
Definition try_finally {A} (m : M A) (f : M unit) : M A :=
  fun s => match m s with
           | (r, s') => match f s' with
                        | (Ok _, s'') => (r, s'')
                        | (Err e, s'') => (Err e, s'')
                        end
           end.

(** A call that leaves the process. *)
Definition io : M unit :=
  fun s => if decide (clock s ∈ faults s) then (Err "external call failed", tick s)
           else (Ok tt, tick s).

(** [for x in l: body(i, x)] with [enumerate(l, start)]. *)
Fixpoint for_each {A} (start : Z) (l : list A) (body : Z -> A -> M unit) : M unit :=
  match l with
  | [] => ret tt
  | x :: rest => body start x ;; for_each (Z.succ start) rest body
  end.

(* ------------------------------------------------------------------ *)
(** ** Session, lock, notification and ledger primitives *)

(** [db.session.commit()]: a round trip; on success the session's view
    becomes the committed state. *)
Definition commit : M unit :=
  io ;; modify (fun s => set_db (sess s) s).

(** [db.session.rollback()] and [db.session.remove()]: pending changes
    are discarded. *)
Definition rollback : M unit := modify (fun s => set_sess (db s) s).
Definition session_remove : M unit := modify (fun s => set_sess (db s) s).

Definition sess_update (f : DB -> DB) : M unit :=
  modify (fun s => set_sess (f (sess s)) s).

(** [notify(message, user_id)] and [socketio.emit(name, ..., room=user_id)]:
    both are Socket.IO emits. *)
Definition notify (msg : string) (uid : Z) : M unit :=
  io ;; modify (push_event (uid, msg)).
Definition socket_emit (name : string) (uid : Z) : M unit :=
  io ;; modify (push_event (uid, name)).

(** [set_user_generation_lock]: Redis [SET key 1 EX expire NX]. The Redis
    calls are atomic and are not among the failing calls. The expiry is
    not modelled: a key is present until it is deleted. *)
Definition set_user_generation_lock (uid : Z) : M bool :=
  fun s => if decide (uid ∈ locks s) then (Ok false, s)
           else (Ok true, set_locks ({[uid]} ∪ locks s) s).

(** [clear_user_generation_lock]: Redis [DEL key], unconditional. *)
Definition clear_user_generation_lock (uid : Z) : M unit :=
  modify (fun s => set_locks (locks s ∖ {[uid]}) s).

(** [GenerationLog.query.filter_by(task_id=, user_id=, generation_type=).first()] *)
Definition find_log (tid uid : Z) (g : GenType) : M (option Z) :=
  io ;;
  gets (fun s => option_map log_id
         (List.find (fun l => bool_decide (task_id l = tid /\ log_user_id l = uid
                                           /\ generation_type l = g)) (logs (sess s)))).

(** [if log_entry: <assignments>; db.session.commit()] *)
Definition if_log (entry : option Z) (f : GenerationLog -> GenerationLog) : M unit :=
  match entry with
  | None => ret tt
  | Some i =>
    sess_update (fun d => db_set_logs
      (map (fun l => if bool_decide (log_id l = i) then f l else l) (logs d)) d) ;;
    commit
  end.

(** [db.session.add(GenerationLog(...))]; the row id is assigned on flush. *)
Definition add_log (mk : Z -> GenerationLog) : M unit :=
  sess_update (fun d => db_bump_id (db_set_logs (logs d ++ [mk (next_row_id d)]) d)).

(** The success assignments of the text workers: [real_cost], [status],
    [input_tokens], [output_tokens], [model]. *)
Definition mark_text_succeeded (c : Z) (itok otok : Z) (model : string)
    (l : GenerationLog) : GenerationLog :=
  mkLog (log_id l) (log_user_id l) (task_id l) (generation_type l) (predicted_cost l)
        (Some (PyInt c)) Succeeded (error_message l) (Some model) itok otok.

(** The success assignments of the image worker: [status], [model]. *)
Definition mark_image_succeeded (l : GenerationLog) : GenerationLog :=
  mkLog (log_id l) (log_user_id l) (task_id l) (generation_type l) (predicted_cost l)
        (real_cost l) Succeeded (error_message l) (Some "dall-e-3")
        (log_input_tokens l) (log_output_tokens l).

(** The failure assignments: [status = "failed"], [error_message = str(e)]. *)
Definition mark_failed (e : string) (l : GenerationLog) : GenerationLog :=
  mkLog (log_id l) (log_user_id l) (task_id l) (generation_type l) (predicted_cost l)
        (real_cost l) Failed (Some e) (log_model l) (log_input_tokens l) (log_output_tokens l).

(** [User.query.get(id)] / [Story.query.get(id)] *)
Definition get_user (uid : Z) : M (option User) :=
  io ;; gets (fun s => users (sess s) !! uid).
Definition get_story (sid : Z) : M (option StoryRow) :=
  io ;; gets (fun s => List.find (fun st => bool_decide (story_id st = sid)) (stories (sess s))).

Inductive CreditKind := CText | CImage | CAudio.

Definition credits_of (k : CreditKind) (u : User) : Z :=
  match k with CText => text_credits u | CImage => image_credits u | CAudio => audio_credits u end.

Definition set_credits (k : CreditKind) (v : Z) (u : User) : User :=
  match k with
  | CText => mkUser (user_id u) v (image_credits u) (audio_credits u)
  | CImage => mkUser (user_id u) (text_credits u) v (audio_credits u)
  | CAudio => mkUser (user_id u) (text_credits u) (image_credits u) v
  end.

(** Python's exact comparison [c >= x] of an int with a number. *)
Definition int_ge_num (c : Z) (x : PyNum) : bool :=
  match x with
  | PyInt z => (z <=? c)
  | PyFloat f =>
    match FloatOps.Prim2SF f with
    | SpecFloat.S754_zero _ => (0 <=? c)
    | SpecFloat.S754_infinity neg => neg
    | SpecFloat.S754_nan => false
    | SpecFloat.S754_finite neg m e =>
      let v := if neg then Z.neg m else Z.pos m in
      if (0 <=? e) then (v * 2 ^ e <=? c) else (v <=? c * 2 ^ (- e))
    end
  end.

(** [can_spend_credits(user, credit_type, cost)] *)
Definition can_spend_credits (u : User) (k : CreditKind) (cost : PyNum) : bool :=
  int_ge_num (credits_of k u) cost.

(** [credits -= cost]; a float result is stored into the Integer column. *)
Definition sub_cost (c : Z) (cost : PyNum) : result Z :=
  match cost with
  | PyInt z => Ok (c - z)
  | PyFloat f =>
    let! fc := PyFloatOps.float_of_Z c in PyFloatOps.round0 (PrimFloat.sub fc f)
  end.

(** [spend_credits(user_id, credit_type, cost)]: unconditional debit and
    commit; a missing user raises [AttributeError]. *)
Definition spend_credits (uid : Z) (k : CreditKind) (cost : PyNum) : M unit :=
  ou <- get_user uid ;
  match ou with
  | None => raise "'NoneType' object has no attribute"
  | Some u =>
    v <- lift (sub_cost (credits_of k u) cost) ;
    sess_update (fun d => db_set_users (<[uid := set_credits k v u]> (users d)) d) ;;
    commit
  end.

(* ------------------------------------------------------------------ *)
(** ** Celery workers ([tasks.py]) *)

(** The value a task returns ([None], a success dict or an error dict). *)
Inductive TaskRet :=
| RetNone
| RetSuccess
| RetError (e : string).

Section Workers.

(** The external collaborators: [json.loads] ([None] when it raises) and
    the tokenizer [count_tokens(text, model)]. *)
Variable json_loads : string -> option Json.
Variable count_tokens : string -> string -> Z.

(** [json.loads(text)] where an exception propagates. *)
Definition json_loads_or_raise (text : string) : M Json :=
  match json_loads text with
  | Some j => ret j
  | None => raise "JSONDecodeError"
  end.

(** A reconciliation call from a worker: [TokenCostConfig.query.first()]
    and the two [CreditConfig] queries, then the arithmetic. *)
Definition estimate (f : Pricing -> result Cost) : M Cost :=
  io ;; io ;; io ;;
  p <- gets (fun s => pricing (sess s)) ;
  lift (f p).

(** The cleanup block every worker ends with. *)
Definition worker_finally (uid : Z) : M unit :=
  clear_user_generation_lock uid ;; session_remove.

(** The four steps after persisting that every text worker shares:
    debit the actual cost, record success, notify. *)
Definition debit_and_record (entry : option Z) (uid : Z) (actual : Cost)
    (model msg : string) : M unit :=
  spend_credits uid CText (PyInt (total_credit_cost actual)) ;;
  if_log entry (mark_text_succeeded (total_credit_cost actual)
                  (input_tokens actual) (output_tokens actual) model) ;;
  notify msg uid.

(** The [except Exception as e] block of the text workers. *)
Definition text_failure (entry : option Z) (uid : Z) (msg : string) (e : string) : M TaskRet :=
  if_log entry (mark_failed e) ;;
  notify msg uid ;;
  socket_emit "generation_error" uid ;;
  ret (RetError e).

(** [generate_image_task]; [reply] stands for the image the provider
    returns (its download is one more external call). *)
Definition generate_image_task (tid sid : Z) (image_key prompt : string) (uid : Z)
    (credit_cost : PyNum) (chapter : option Z) : M TaskRet :=
  log_entry <- find_log tid uid GImage ;
  let finish :=
    commit ;;
    spend_credits uid CImage credit_cost ;;
    if_log log_entry mark_image_succeeded ;;
    notify "Image Generation Complete" uid ;;
    io ;;  (* get_image_url: presigning *)
    socket_emit "image_generated" uid ;;
    ret RetSuccess in
  try_finally
    (try_except
      (io ;;  (* generate_image_from_prompt *)
       io ;;  (* requests.get(result_url).content *)
       match chapter with
       | None =>
         ost <- get_story sid ;
         match ost with
         | None => notify "Story not found" uid ;; ret (RetError "Story not found.")
         | Some _ =>
           io ;;  (* put_image *)
           sess_update (fun d => db_set_stories
             (map (fun st => if bool_decide (story_id st = sid)
                             then mkStory (story_id st) (chapters_count st) (Some image_key)
                             else st) (stories d)) d) ;;
           finish
         end
       | Some cid =>
         io ;;
         och <- gets (fun s => List.find (fun c => bool_decide (chapter_story_id c = sid
                                  /\ chapter_id c = cid)) (chapters (sess s))) ;
         match och with
         | None => notify "Chapter not found" uid ;; ret (RetError "Chapter not found.")
         | Some _ =>
           io ;;  (* put_image *)
           sess_update (fun d => db_set_chapters
             (map (fun c => if bool_decide (chapter_story_id c = sid /\ chapter_id c = cid)
                            then mkChapter (chapter_id c) (chapter_story_id c) (chapter_number c)
                                   (chapter_title c) (chapter_summary c) (chapter_content c)
                                   (Some image_key)
                            else c) (chapters d)) d) ;;
           finish
         end
       end)
      (fun e =>
        rollback ;;
        if_log log_entry (mark_failed e) ;;
        notify "Image Generation Failed" uid ;;
        socket_emit "generation_error" uid ;;
        ret (RetError e)))
    (worker_finally uid).

(** The metadata test [len(result.get("locations")) == 0 and
    len(result.get("characters")) == 0], with Python's short circuit. *)
Definition meta_is_empty (res : Json) : result bool :=
  let! locs := PyJson.get res "locations" in
  let! nl := PyJson.len locs in
  if Nat.eqb nl 0 then
    let! chars := PyJson.get res "characters" in
    let! nc := PyJson.len chars in
    Ok (Nat.eqb nc 0)
  else Ok false.

(** [generate_meta_task]; [reply] is what [generate_meta_from_prompt]
    returned. *)
Definition generate_meta_task (tid sid : Z) (prompt : string) (uid pit : Z)
    (reply : string) : M TaskRet :=
  log_entry <- find_log tid uid GMeta ;
  try_finally
    (try_except
      (io ;;  (* generate_meta_from_prompt *)
       let result_text := reply in
       let result := match json_loads result_text with
                     | Some j => j
                     | None => JObj [("locations", JArr []); ("characters", JArr [])]
                     end in
       empty <- lift (meta_is_empty result) ;
       if empty then
         notify "Metadata Generation Failed" uid ;;
         clear_user_generation_lock uid ;;
         ret RetNone
       else
         ost <- get_story sid ;
         (match ost with
          | None => ret tt
          | Some st =>
            io ;; sess_update (fun d => db_set_characters
                     (filter (fun c => bool_decide (char_story_id c <> story_id st)) (characters d)) d) ;;
            io ;; sess_update (fun d => db_set_locations
                     (filter (fun l => bool_decide (loc_story_id l <> story_id st)) (locations d)) d) ;;
            cs <- lift (PyJson.get_default result "characters" (JArr [])) ;
            citems <- lift (PyJson.iter cs) ;
            for_each 0 citems (fun _ char_data =>
              n <- lift (PyJson.get char_data "name") ;
              de <- lift (PyJson.get char_data "description") ;
              ex <- lift (PyJson.get char_data "example_dialogue") ;
              sess_update (fun d => db_set_characters
                (characters d ++ [mkCharacter (story_id st) n de ex]) d)) ;;
            ls <- lift (PyJson.get_default result "locations" (JArr [])) ;
            litems <- lift (PyJson.iter ls) ;
            for_each 0 litems (fun _ loc_data =>
              n <- lift (PyJson.get loc_data "name") ;
              de <- lift (PyJson.get loc_data "description") ;
              sess_update (fun d => db_set_locations
                (locations d ++ [mkLocation (story_id st) n de]) d)) ;;
            commit
          end) ;;
         actual_cost <- estimate (fun p => calculate_actual_meta_cost p pit
                                     (count_tokens result_text "gpt-4o-mini")) ;
         debit_and_record log_entry uid actual_cost "gpt-4o-mini" "Metadata Generation Successful" ;;
         (match ost with
          | None => raise "'NoneType' object has no attribute 'id'"
          | Some _ => io ;; io  (* the Character and Location queries *)
          end) ;;
         socket_emit "meta_generated" uid ;;
         ret RetSuccess)
      (text_failure log_entry uid "Metadata Generation Failed"))
    (worker_finally uid).

(** [generate_story_arcs_task] *)
Definition generate_story_arcs_task (tid sid : Z) (prompt : string) (uid pit : Z)
    (reply : string) : M TaskRet :=
  log_entry <- find_log tid uid GStoryArcs ;
  try_finally
    (try_except
      (io ;;  (* generate_story_arcs_from_prompt *)
       let arcs_text := reply in
       arcs <- json_loads_or_raise arcs_text ;
       ost <- get_story sid ;
       (match ost with
        | None => ret tt
        | Some st =>
          io ;; sess_update (fun d => db_set_story_arcs
                   (filter (fun a => bool_decide (arc_story_id a <> story_id st)) (story_arcs d)) d) ;;
          items <- lift (PyJson.iter arcs) ;
          for_each 0 items (fun index arc =>
            sess_update (fun d => db_set_story_arcs
              (story_arcs d ++ [mkStoryArc (story_id st) arc (index + 1)]) d)) ;;
          commit
        end) ;;
       actual_cost <- estimate (fun p => calculate_actual_story_arcs_cost p pit
                                   (count_tokens arcs_text "o1-mini")) ;
       debit_and_record log_entry uid actual_cost "o1-mini" "Story Arcs Generation Successful" ;;
       socket_emit "arcs_generated" uid ;;
       ret RetSuccess)
      (text_failure log_entry uid "Story Arcs Generation Failed"))
    (worker_finally uid).

(** [not text.strip()]: every character is one of the ASCII characters
    [str.strip] removes (tab to carriage return, the separators [\x1c] to
    [\x1f], space). *)
Definition is_blank (text : string) : bool :=
  forallb (fun a => bool_decide (a ∈ [" "; "009"; "010"; "011"; "012"; "013";
                                      "028"; "029"; "030"; "031"]%char))
          (String.list_ascii_of_string text).

(** One iteration of the summaries loop: update chapter [index] of the
    story or create it. *)
Definition upsert_summary (st : StoryRow) (index : Z) (chapter_data : Json) : M unit :=
  io ;;  (* Chapter.query.filter_by(story_id=story.id, chapter_number=index).first() *)
  och <- gets (fun s => List.find (fun c => bool_decide (chapter_story_id c = story_id st
                          /\ chapter_number c = index)) (chapters (sess s))) ;
  match och with
  | None =>
    t <- lift (PyJson.get_default chapter_data "title" (JStr ("Chapter " +:+ pretty index))) ;
    sm <- lift (PyJson.get_default chapter_data "summary" (JStr "")) ;
    sess_update (fun d => db_bump_id (db_set_chapters
      (chapters d ++ [mkChapter (next_row_id d) (story_id st) index t sm None None]) d))
  | Some c =>
    t <- lift (PyJson.get_default chapter_data "title" (chapter_title c)) ;
    sm <- lift (PyJson.get_default chapter_data "summary" (chapter_summary c)) ;
    sess_update (fun d => db_set_chapters
      (map (fun c' => if bool_decide (chapter_id c' = chapter_id c)
                      then mkChapter (chapter_id c') (chapter_story_id c') (chapter_number c')
                             t sm (chapter_content c') (chapter_image_key c')
                      else c') (chapters d)) d)
  end.

(** [generate_summaries_task] *)
Definition generate_summaries_task (tid sid : Z) (prompt : string) (uid pit : Z)
    (reply : string) : M TaskRet :=
  log_entry <- find_log tid uid GSummaries ;
  try_finally
    (try_except
      (ost <- get_story sid ;
       io ;;  (* generate_chapter_summaries_from_prompt *)
       let generated_summaries_text := reply in
       (if is_blank generated_summaries_text
        then raise "Empty response received for Chapter Summaries." else ret tt) ;;
       generated_summaries <-
         (match json_loads generated_summaries_text with
          | Some j => ret j
          | None => raise "Failed to parse Chapter Summaries JSON"
          end) ;
       items <- lift (PyJson.iter generated_summaries) ;
       for_each 1 items (fun index chapter_data =>
         match ost with
         | None => raise "'NoneType' object has no attribute 'id'"
         | Some st => upsert_summary st index chapter_data
         end) ;;
       commit ;;
       actual_cost <- estimate (fun p => calculate_actual_summaries_cost p pit
                                   (count_tokens generated_summaries_text "o1-mini")) ;
       debit_and_record log_entry uid actual_cost "o1-mini" "Summaries Generation Successful" ;;
       (match ost with
        | None => raise "'NoneType' object has no attribute 'chapters'"
        | Some _ => io
        end) ;;
       socket_emit "summaries_generated" uid ;;
       ret RetSuccess)
      (text_failure log_entry uid "Summaries Generation Failed"))
    (worker_finally uid).

(** Python's [sorted(parts, key=lambda x: x["arc"])] raises [TypeError]
    when two keys are of incomparable types: numbers (and bools) compare
    with each other, strings with strings, lists with lists; [None] and
    dicts have no order. *)
Definition order_class (j : Json) : option nat :=
  match j with
  | JNum _ | JBool _ => Some 0%nat
  | JStr _ => Some 1%nat
  | JArr _ => Some 2%nat
  | JNull | JObj _ => None
  end.

Definition sortable (keys : list Json) : bool :=
  match keys with
  | [] | [_] => true
  | k :: rest =>
    match order_class k with
    | None => false
    | Some c => forallb (fun k' => bool_decide (order_class k' = Some c)) rest
    end
  end.

(** The grouping and sorting of the saved guide rows for the emit. *)
Definition group_guide (sid : Z) : M unit :=
  io ;;  (* ChapterGuide.query.filter_by(story_id=story_id).all() *)
  rows <- gets (fun s => filter (fun g => bool_decide (guide_story_id g = sid)) (chapter_guides (sess s))) ;
  let titles := remove_dups (map guide_chapter_title rows) in
  if forallb (fun t => sortable (map part_index
                (filter (fun g => bool_decide (guide_chapter_title g = t)) rows))) titles
  then ret tt else raise "'<' not supported between instances".

(** [generate_chapter_guide_task] *)
Definition generate_chapter_guide_task (tid sid : Z) (full_prompt : string) (uid pit : Z)
    (reply : string) : M TaskRet :=
  log_entry <- find_log tid uid GChapterGuide ;
  try_finally
    (try_except
      (io ;;  (* generate_chapter_guide_from_prompt *)
       let chapter_guide_text := reply in
       chapter_guide <- json_loads_or_raise chapter_guide_text ;
       io ;; sess_update (fun d => db_set_chapter_guides
                (filter (fun g => bool_decide (guide_story_id g <> sid)) (chapter_guides d)) d) ;;
       groups <- lift (PyJson.items chapter_guide) ;
       for_each 0 groups (fun _ '(title, arcs_list) =>
         arc_objs <- lift (PyJson.iter arcs_list) ;
         for_each 0 arc_objs (fun _ arc_obj =>
           arc_number <- lift (PyJson.get arc_obj "arc") ;
           arc_txt <- lift (PyJson.get arc_obj "arc_text") ;
           chs <- lift (PyJson.get_default arc_obj "characters" (JArr [])) ;
           lcs <- lift (PyJson.get_default arc_obj "locations" (JArr [])) ;
           (* if arc_text is None or arc_number is None: continue *)
           match arc_txt, arc_number with
           | Some JNull, _ | _, Some JNull | None, _ | _, None => ret tt
           | Some t, Some n =>
             sess_update (fun d => db_set_chapter_guides
               (chapter_guides d ++ [mkChapterGuide sid title n t chs lcs]) d)
           end)) ;;
       commit ;;
       actual_cost <- estimate (fun p => calculate_actual_chapter_guide_cost p pit
                                   (count_tokens chapter_guide_text "o1-mini")) ;
       debit_and_record log_entry uid actual_cost "o1-mini" "Detailed Story Arcs Generation Successful" ;;
       group_guide sid ;;
       socket_emit "chapter_guide_generated" uid ;;
       ret RetSuccess)
      (text_failure log_entry uid "Detailed Story Arcs Generation Failed"))
    (worker_finally uid).

(** [generate_chapter_task] *)
Definition generate_chapter_task (tid sid : Z) (prompt : string) (chapter_num uid pit : Z)
    (reply : string) : M TaskRet :=
  log_entry <- find_log tid uid GChapter ;
  try_finally
    (try_except
      (io ;;  (* generate_chapter_content_from_prompt *)
       let content := reply in
       io ;;
       och <- gets (fun s => List.find (fun c => bool_decide (chapter_story_id c = sid
                                /\ chapter_number c = chapter_num)) (chapters (sess s))) ;
       (match och with
        | None => ret tt
        | Some c =>
          sess_update (fun d => db_set_chapters
            (map (fun c' => if bool_decide (chapter_id c' = chapter_id c)
                            then mkChapter (chapter_id c') (chapter_story_id c') (chapter_number c')
                                   (chapter_title c') (chapter_summary c') (Some content)
                                   (chapter_image_key c')
                            else c') (chapters d)) d)
        end) ;;
       commit ;;
       actual_cost <- estimate (fun p => calculate_actual_chapter_cost p pit
                                   (count_tokens content "o1-mini")) ;
       debit_and_record log_entry uid actual_cost "o1-mini" "Chapter Generation Successful" ;;
       (match och with
        | None => raise "'NoneType' object has no attribute 'title'"
        | Some _ => socket_emit "chapter_generated" uid
        end) ;;
       ret RetSuccess)
      (text_failure log_entry uid "Chapter Generation Failed"))
    (worker_finally uid).

(** A worker run of an enqueued task; [reply] is the model's output. *)
Definition run_task (t : Task) (reply : string) : M TaskRet :=
  match t with
  | TImage tid sid k p uid c ch => generate_image_task tid sid k p uid c ch
  | TMeta tid sid p uid pit => generate_meta_task tid sid p uid pit reply
  | TStoryArcs tid sid p uid pit => generate_story_arcs_task tid sid p uid pit reply
  | TSummaries tid sid p uid pit => generate_summaries_task tid sid p uid pit reply
  | TChapterGuide tid sid p uid pit => generate_chapter_guide_task tid sid p uid pit reply
  | TChapter tid sid p n uid pit => generate_chapter_task tid sid p n uid pit reply
  end.

Definition task_user (t : Task) : Z :=
  match t with
  | TImage _ _ _ _ uid _ _ | TMeta _ _ _ uid _ | TStoryArcs _ _ _ uid _
  | TSummaries _ _ _ uid _ | TChapterGuide _ _ _ uid _ | TChapter _ _ _ _ uid _ => uid
  end.

End Workers.

(* ------------------------------------------------------------------ *)
(** ** Overdraft guard ([helpers.is_last_generation_and_negative_creds]) *)

(** [GenerationLog.query.filter_by(user_id=uid).order_by(desc(id)).first()] *)
Definition last_log_of (ls : list GenerationLog) (uid : Z) : option GenerationLog :=
  fold_left (fun acc l =>
               if bool_decide (log_user_id l = uid) then
                 match acc with
                 | Some best => if (log_id best <? log_id l) then Some l else acc
                 | None => Some l
                 end
               else acc) ls None.

(** The [isCreditNegative] branches: the text kinds read [text_credits],
    [image] reads [image_credits]. *)
Definition credit_negative (g : GenType) (u : User) : bool :=
  match g with
  | GImage => (image_credits u <=? 0)
  | _ => (text_credits u <=? 0)
  end.

Definition last_generation_and_negative (ls : list GenerationLog) (u : User) (t : GenType) : bool :=
  match last_log_of ls (user_id u) with
  | None => false
  | Some l => if decide (generation_type l = t) then credit_negative t u else false
  end.

Definition is_last_generation_and_negative_creds (u : User) (t : GenType) : M bool :=
  io ;; gets (fun s => last_generation_and_negative (logs (sess s)) u t).

(* ------------------------------------------------------------------ *)
(** ** Dispatchers ([api/generation.py]) *)

(** The JSON responses of the generation endpoints. *)
Inductive Response :=
| RGuardBlocked                      (* {"error": True} *)
| RNotFound                          (* 404 *)
| RInProgress                        (* "A generation task is already in progress." *)
| RChapterDataNotFound               (* "Chapter data not found." *)
| RNotEnoughCredits (required : PyNum) (available : option Z)
| RQueued (tid : option Z)           (* status "queued", with "task_id" or not *)
| RServerError (e : string).         (* 500 from the enqueue [except] *)

(** [get_current_user()]; the [is_story_author_or_admin] decorator has let
    the request through, so the user exists. *)
Definition get_current_user (uid : Z) : M User :=
  ou <- get_user uid ;
  match ou with
  | Some u => ret u
  | None => raise "'NoneType' object has no attribute 'id'"
  end.

(** [task = <worker>.delay(...)] *)
Definition enqueue (mk : Z -> Task) : M Z :=
  io ;; fun s => (Ok (next_task_id s), push_task (mk (next_task_id s)) s).

(** A prediction from a request handler: the pricing queries, then the
    arithmetic. The rendered prompt and its token count are computed by
    the external prompt builder and tokenizer and passed in. *)
Definition predict (f : Pricing -> result Cost) : M Cost :=
  io ;; io ;; io ;;
  p <- gets (fun s => pricing (sess s)) ;
  lift (f p).

Definition pending_log (uid tid : Z) (g : GenType) (predicted : PyNum) (real : option PyNum)
    (id : Z) : GenerationLog :=
  mkLog id uid tid g (Some predicted) real Pending None None 0 0.

(** The [try:] block that ends every single-job text endpoint. *)
Definition enqueue_and_log (uid : Z) (g : GenType) (mk : Z -> Task) (total : Z)
    (ok_msg fail_msg : string) : M Response :=
  try_except
    (tid <- enqueue mk ;
     add_log (pending_log uid tid g (PyInt total) None) ;;
     commit ;;
     notify ok_msg uid ;;
     ret (RQueued (Some tid)))
    (fun e => notify fail_msg uid ;; clear_user_generation_lock uid ;; ret (RServerError e)).

Definition not_enough (u : User) (total : Z) : Response :=
  RNotEnoughCredits (PyInt total) (Some (text_credits u)).

(** [api_generate_meta] *)
Definition api_generate_meta (uid sid : Z) (full_prompt : string) (itok : Z) : M Response :=
  user <- get_current_user uid ;
  blocked <- is_last_generation_and_negative_creds user GMeta ;
  if blocked then notify "Top up your credits to see generation" uid ;; ret RGuardBlocked else
  ost <- get_story sid ;
  match ost with
  | None => ret RNotFound
  | Some st =>
    prediction <- predict (fun p => calculate_predicted_meta_cost p itok) ;
    let total := total_credit_cost prediction in
    if negb (can_spend_credits user CText (PyInt total)) then
      notify "You Don't Have Enough Credits!" uid ;; ret (not_enough user total)
    else
      io ;;  (* story.tags for the prompt *)
      enqueue_and_log uid GMeta (fun tid => TMeta tid sid full_prompt uid (input_tokens prediction))
        total "Generating Metadata..." "Metadata Generation Failed"
  end.

(** [api_generate_arcs] *)
Definition api_generate_arcs (uid sid : Z) (full_prompt : string) (itok : Z) : M Response :=
  user <- get_current_user uid ;
  blocked <- is_last_generation_and_negative_creds user GStoryArcs ;
  if blocked then notify "Top up your credits to see generation" uid ;; ret RGuardBlocked else
  ost <- get_story sid ;
  match ost with
  | None => ret RNotFound
  | Some st =>
    io ;;  (* characters, locations and tags for the prompt *)
    prediction <- predict (fun p => calculate_predicted_story_arcs_cost p itok) ;
    let total := total_credit_cost prediction in
    if negb (can_spend_credits user CText (PyInt total)) then
      notify "You Don't Have Enough Credits!" uid ;; ret (not_enough user total)
    else
      enqueue_and_log uid GStoryArcs
        (fun tid => TStoryArcs tid sid full_prompt uid (input_tokens prediction))
        total "Generating Story Arcs..." "Story Arcs Generation Failed"
  end.

(** [api_generate_summaries] *)
Definition api_generate_summaries (uid sid : Z) (full_prompt : string) (itok : Z) : M Response :=
  user <- get_current_user uid ;
  blocked <- is_last_generation_and_negative_creds user GSummaries ;
  if blocked then notify "Top up your credits to see generation" uid ;; ret RGuardBlocked else
  ost <- get_story sid ;
  match ost with
  | None => ret RNotFound
  | Some st =>
    locked <- set_user_generation_lock uid ;
    if negb locked then
      notify "A generation task is already in progress" uid ;; ret RInProgress
    else
      io ;;  (* tags, characters, locations and arcs for the prompt *)
      prediction <- predict (fun p => calculate_predicted_summaries_cost p itok (chapters_count st)) ;
      let total := total_credit_cost prediction in
      if negb (can_spend_credits user CText (PyInt total)) then
        notify "You Don't Have Enough Credits!" uid ;; ret (not_enough user total)
      else
        enqueue_and_log uid GSummaries
          (fun tid => TSummaries tid sid full_prompt uid (input_tokens prediction))
          total "Generating Summaries..." "Summaries Generation Failed"
  end.

(** [api_generate_chapter_guide] *)
Definition api_generate_chapter_guide (uid sid : Z) (full_prompt : string) (itok : Z) : M Response :=
  user <- get_current_user uid ;
  blocked <- is_last_generation_and_negative_creds user GChapterGuide ;
  if blocked then notify "Top up your credits to see generation" uid ;; ret RGuardBlocked else
  ost <- get_story sid ;
  match ost with
  | None => ret RNotFound
  | Some st =>
    io ;;  (* characters, locations, chapters, arcs and tags for the prompt *)
    prediction <- predict (fun p => calculate_predicted_chapter_guide_cost p itok) ;
    let total := total_credit_cost prediction in
    if negb (can_spend_credits user CText (PyInt total)) then
      notify "You Don't Have Enough Credits!" uid ;; ret (not_enough user total)
    else
      enqueue_and_log uid GChapterGuide
        (fun tid => TChapterGuide tid sid full_prompt uid (input_tokens prediction))
        total "Generating Detailed Story Arcs..." "Detailed Story Arcs Generation Failed"
  end.

Definition story_chapters (sid : Z) (d : DB) : list ChapterRow :=
  filter (fun c => bool_decide (chapter_story_id c = sid)) (chapters d).

(** [api_generate_chapter] *)
Definition api_generate_chapter (uid sid chapter_num : Z) (full_prompt : string) (itok : Z)
    : M Response :=
  user <- get_current_user uid ;
  blocked <- is_last_generation_and_negative_creds user GChapter ;
  if blocked then notify "Top up your credits to see generation" uid ;; ret RGuardBlocked else
  user <- get_current_user uid ;
  ost <- get_story sid ;
  match ost with
  | None => ret RNotFound
  | Some st =>
    locked <- set_user_generation_lock uid ;
    if negb locked then
      notify "A generation task is already in progress" uid ;; ret RInProgress
    else
      io ;;
      n <- gets (fun s => Z.of_nat (length (story_chapters sid (sess s)))) ;
      if (n =? 0) || (n <? chapter_num) then
        clear_user_generation_lock uid ;; ret RChapterDataNotFound
      else
        (if (chapter_num - 1 <? - n) then raise "list index out of range" else ret tt) ;;
        io ;;  (* tags, guide rows, characters and locations for the prompt *)
        prediction <- predict (fun p => calculate_predicted_chapter_cost p itok) ;
        let total := total_credit_cost prediction in
        if negb (can_spend_credits user CText (PyInt total)) then
          notify "You Don't Have Enough Credits!" uid ;;
          clear_user_generation_lock uid ;;
          ret (not_enough user total)
        else
          enqueue_and_log uid GChapter
            (fun tid => TChapter tid sid full_prompt chapter_num uid (input_tokens prediction))
            total "Generating Chapter..." "Chapter Generation Failed"
  end.

(** [api_generate_all_chapters]; [chapter_inputs] holds, in chapter order,
    each chapter's rendered prompt and its token count. *)
Definition api_generate_all_chapters (uid sid : Z) (chapter_inputs : list (string * Z))
    : M Response :=
  user <- get_current_user uid ;
  blocked <- is_last_generation_and_negative_creds user GChapter ;
  if blocked then notify "Top up your credits to see generation" uid ;; ret RGuardBlocked else
  user <- get_current_user uid ;
  ost <- get_story sid ;
  match ost with
  | None => ret RNotFound
  | Some st =>
    locked <- set_user_generation_lock uid ;
    if negb locked then
      notify "A generation task is already in progress" uid ;; ret RInProgress
    else
      io ;; io ;;  (* tags and the chapters *)
      io ;; io ;; io ;;
      p <- gets (fun s => pricing (sess s)) ;
      total <- lift (calculate_predicted_all_chapters_cost p (map snd chapter_inputs)) ;
      if negb (can_spend_credits user CText (PyInt total)) then
        notify "You Don't Have Enough Credits!" uid ;;
        clear_user_generation_lock uid ;;
        ret (not_enough user total)
      else
        for_each 0 chapter_inputs (fun i '(full_prompt, itok) =>
          io ;;  (* guide rows, characters and locations for the prompt *)
          chapter_prediction <- predict (fun p => calculate_predicted_chapter_cost p itok) ;
          tid <- enqueue (fun tid => TChapter tid sid full_prompt (i + 1) uid
                                       (input_tokens chapter_prediction)) ;
          add_log (pending_log uid tid GChapter
                     (PyInt (total_credit_cost chapter_prediction)) None) ;;
          commit) ;;
        notify "Generating All Chapters..." uid ;;
        ret (RQueued None)
  end.

(** The image prediction from a request handler. *)
Definition predict_image : M ImageCost :=
  io ;; io ;;
  p <- gets (fun s => pricing (sess s)) ;
  lift (calculate_image_cost p).

(** [api_generate_cover_image] *)
Definition api_generate_cover_image (uid sid : Z) (cover_prompt : string) : M Response :=
  user <- get_current_user uid ;
  blocked <- is_last_generation_and_negative_creds user GImage ;
  if blocked then notify "Top up your credits to see generation" uid ;; ret RGuardBlocked else
  ost <- get_story sid ;  (* get_or_404 *)
  match ost with
  | None => ret RNotFound
  | Some st =>
    commit ;;  (* story.cover_image_prompt = cover_prompt *)
    ic <- predict_image ;
    let prediction := PyFloat (total_image_credit_cost ic) in
    if negb (can_spend_credits user CImage prediction) then
      notify "You don't have enough credits!" uid ;;
      ret (RNotEnoughCredits prediction None)
    else
      try_except
        (let image_key := "stories/" +:+ pretty sid +:+ "/cover.jpg" in
         tid <- enqueue (fun tid => TImage tid (story_id st) image_key cover_prompt uid prediction None) ;
         add_log (pending_log uid tid GImage prediction (Some prediction)) ;;
         commit ;;
         notify "Generating Cover Image..." uid ;;
         ret (RQueued None))
        (fun e => notify "Cover Image Generation Failed" uid ;;
                  clear_user_generation_lock uid ;; ret (RServerError e))
  end.

(** [api_generate_chapter_image] *)
Definition api_generate_chapter_image (uid sid cid : Z) (chapter_prompt : string) : M Response :=
  user <- get_current_user uid ;
  blocked <- is_last_generation_and_negative_creds user GImage ;
  if blocked then notify "Top up your credits to see generation" uid ;; ret RGuardBlocked else
  io ;;  (* first_or_404 *)
  och <- gets (fun s => List.find (fun c => bool_decide (chapter_story_id c = sid
                           /\ chapter_id c = cid)) (chapters (sess s))) ;
  match och with
  | None => ret RNotFound
  | Some _ =>
    commit ;;  (* chapter.chapter_image_prompt = chapter_prompt *)
    ic <- predict_image ;
    let prediction := PyFloat (total_image_credit_cost ic) in
    if negb (can_spend_credits user CImage prediction) then
      notify "You don't have enough credits!" uid ;;
      ret (RNotEnoughCredits prediction None)
    else
      try_except
        (let image_key := "stories/" +:+ pretty sid +:+ "/chapters/" +:+ pretty cid +:+ ".jpg" in
         tid <- enqueue (fun tid => TImage tid sid image_key chapter_prompt uid prediction (Some cid)) ;
         add_log (pending_log uid tid GImage prediction None) ;;
         commit ;;
         notify "Generating Chapter Image..." uid ;;
         ret (RQueued None))
        (fun e => notify "Chapter Image Generation Failed" uid ;;
                  clear_user_generation_lock uid ;; ret (RServerError e))
  end.

(* ------------------------------------------------------------------ *)
(** ** The estimator paths by kind *)

(** The ten text estimators of [predictions.py], by generation kind and
    path ([true] = prediction, [false] = reconciliation). [x] is the
    actual output token count on reconciliation paths and the chapter
    count on the summaries prediction; other predictions ignore it. *)
Definition text_estimate (g : GenType) (predicted : bool) (pr : Pricing) (itok x : Z)
    : result Cost :=
  match g, predicted with
  | GMeta, true => calculate_predicted_meta_cost pr itok
  | GMeta, false => calculate_actual_meta_cost pr itok x
  | GStoryArcs, true => calculate_predicted_story_arcs_cost pr itok
  | GStoryArcs, false => calculate_actual_story_arcs_cost pr itok x
  | GSummaries, true => calculate_predicted_summaries_cost pr itok x
  | GSummaries, false => calculate_actual_summaries_cost pr itok x
  | GChapterGuide, true => calculate_predicted_chapter_guide_cost pr itok
  | GChapterGuide, false => calculate_actual_chapter_guide_cost pr itok x
  | GChapter, true => calculate_predicted_chapter_cost pr itok
  | GChapter, false => calculate_actual_chapter_cost pr itok x
  | GImage, _ => Err "no text estimator"
  end.

(** The [CreditConfig] action names each estimator looks up. *)
Definition estimator_actions (g : GenType) : list string :=
  match g with
  | GMeta => ["meta_input"; "meta_output"]
  | GStoryArcs => ["arcs_input"; "arcs_output"]
  | GSummaries => ["summary_input"; "summary_output"]
  | GChapterGuide => ["chapter_guide_input"; "chapter_guide_output"]
  | GChapter => ["chapter_input"; "chapter_output"]
  | GImage => ["image"]
  end.

(* ------------------------------------------------------------------ *)
(** ** Program logic for [M] *)

(** [hoare R Q m]: every run of [m] relates its start and end states by
    [R], and every value it returns satisfies [Q]. *)
Definition hoare (R : St -> St -> Prop) {A} (Q : A -> Prop) (m : M A) : Prop :=
  forall s, R s (snd (m s)) /\ (forall a, fst (m s) = Ok a -> Q a).

(** The lock relation of the dispatchers that never acquire: no key is
    added. *)
Definition locks_shrink (s s' : St) : Prop := locks s' ⊆ locks s.

(** The updates a worker makes to a [GenerationLog] row. *)
Inductive log_step : GenerationLog -> GenerationLog -> Prop :=
| step_text_succeeded c itok otok model l : log_step l (mark_text_succeeded c itok otok model l)
| step_image_succeeded l : log_step l (mark_image_succeeded l)
| step_failed e l : log_step l (mark_failed e l).

(** Both the committed and the session log tables are row-by-row
    reachable from [L0] by worker updates. *)
Definition logs_from (L0 : list GenerationLog) (s : St) : Prop :=
  Forall2 (rtc log_step) L0 (logs (db s)) /\ Forall2 (rtc log_step) L0 (logs (sess s)).

Definition logs_evolve (s s' : St) : Prop :=
  forall L0, logs_from L0 s -> logs_from L0 s'.

(** The updates the image worker makes to a row: its success and failure
    assignments, neither of which touches [real_cost]. *)
Inductive image_log_step : GenerationLog -> GenerationLog -> Prop :=
| image_step_succeeded l : image_log_step l (mark_image_succeeded l)
| image_step_failed e l : image_log_step l (mark_failed e l).

Definition image_logs_from (L0 : list GenerationLog) (s : St) : Prop :=
  Forall2 (rtc image_log_step) L0 (logs (db s)) /\ Forall2 (rtc image_log_step) L0 (logs (sess s)).

Definition image_logs_evolve (s s' : St) : Prop :=
  forall L0, image_logs_from L0 s -> image_logs_from L0 s'.

(* ------------------------------------------------------------------ *)
(** ** Fixtures *)

(** The rows [app.py] seeds when the tables are empty. *)
Definition default_token_cost_config : TokenCostConfig :=
  mkTokenCostConfig 0.000999 0.150 0.600 0.000999 15.00 60.00 0.08.

Definition default_credit_configs : list CreditConfig :=
  [mkCreditConfig "image" "image" 50; mkCreditConfig "text" "meta_input" 50;
   mkCreditConfig "text" "meta_output" 50; mkCreditConfig "text" "summary_input" 2;
   mkCreditConfig "text" "summary_output" 2; mkCreditConfig "text" "arcs_input" 2;
   mkCreditConfig "text" "arcs_output" 2; mkCreditConfig "text" "chapter_guide_input" 2;
   mkCreditConfig "text" "chapter_guide_output" 2; mkCreditConfig "text" "chapter_input" 2;
   mkCreditConfig "text" "chapter_output" 2].

Definition default_pricing : Pricing :=
  mkPricing [default_token_cost_config] default_credit_configs.

(** The seeded prices with no [CreditConfig] rows at all. *)
Definition bare_pricing : Pricing := mkPricing [default_token_cost_config] [].

(** The metadata prediction of Scenario A, field by field. *)
Definition scenario_A_cost : Cost := mkCost 10000 200 6660 1665 2 100 1 50 150.

(** The metadata reconciliation of a 100-token prompt and a 50-token
    reply, and the summaries prediction of a 20-token prompt for three
    chapters, at the seeded prices. *)
Definition small_meta_actual : Cost := mkCost 100 50 6660 1665 1 50 1 50 100.
Definition small_summaries_prediction : Cost := mkCost 20 150 66.6 16.65 0 0 9 18 18.

(** o1 prices of 0.001 dollars a credit and 1 dollar a million tokens:
    1000 tokens a credit both ways. *)
Definition scenario_B_pricing : Pricing :=
  mkPricing [mkTokenCostConfig 0.000999 0.150 0.600 0.001 1.0 1.0 0.08] [].

Definition user_with (text image : Z) : User := mkUser 1 text image 0.

Definition chapter_row (n : Z) : ChapterRow :=
  mkChapter (10 + n) 1 n (JStr "Chapter") (JStr "A summary") None None.

(** A database with user 1 and story 1 (three chapters planned). *)
Definition fixture_db (u : User) (ls : list GenerationLog) (chs : list ChapterRow)
    (pr : Pricing) : DB :=
  mkDB {[ user_id u := u ]} ls [mkStory 1 3 None] [] [] [] chs [] pr 100.

(** A fresh process: the session agrees with the database. *)
Definition fixture_state (d : DB) (lk : gset Z) (fs : list nat) : St :=
  mkSt d d lk [] 1 [] 0 fs.

(** A metadata reply that decodes to empty lists (Scenario E). *)
Definition empty_meta_json : Json := JObj [("characters", JArr []); ("locations", JArr [])].
Definition empty_meta_loads (_ : string) : option Json := Some empty_meta_json.

(** User 1 holds the Generation Lock (a text job is in flight). *)
Definition locked_state : St :=
  fixture_state (fixture_db (user_with 5 10) [] [] default_pricing) {[1]} [].

(** User 1 holds the lock and has 100 text credits. *)
Definition locked_rich_state : St :=
  fixture_state (fixture_db (user_with 100 10) [] [] default_pricing) {[1]} [].

(** User 1 has no credits and holds no lock. *)
Definition broke_state : St :=
  fixture_state (fixture_db (user_with 0 0) [] [] default_pricing) ∅ [].

(** Scenario B: 5 text credits, one chapter, and a chapter prediction of 8
    credits for a 4000-token prompt. *)
Definition scenario_B_state : St :=
  fixture_state (fixture_db (user_with 5 0) [] [chapter_row 1] scenario_B_pricing) ∅ [].

(** User 1 is overdrawn on text credits (0) but has 10 image credits, and
    their most recent job is a chapter. *)
Definition overdrawn_user : User := user_with 0 10.
Definition overdrawn_state : St :=
  fixture_state
    (fixture_db overdrawn_user
       [mkLog 5 1 3 GChapter (Some (PyInt 8)) (Some (PyInt 9)) Succeeded None (Some "o1-mini") 10 10]
       [chapter_row 1] default_pricing) ∅ [].

(** A pending metadata job (task 7) of user 1, whose key is held. *)
Definition meta_pending_state : St :=
  fixture_state
    (fixture_db (user_with 100 0) [pending_log 1 7 GMeta (PyInt 150) None 50] [] default_pricing)
    {[1]} [].

(** A pending story-arcs job (task 7) whose model call (the second
    external call of the worker) fails. *)
Definition arcs_llm_fault_state : St :=
  fixture_state
    (fixture_db (user_with 100 0) [pending_log 1 7 GStoryArcs (PyInt 60) None 50] [] default_pricing)
    {[1]} [1%nat].

Definition no_json (_ : string) : option Json := None.
Definition word_count (_ _ : string) : Z := 1.


(* ------------------------------------------------------------------ *)
(** ** Whole-program views *)

(** The credit category a worker run can debit. *)
Definition task_credit_kind (t : Task) : CreditKind :=
  match t with TImage _ _ _ _ _ _ _ => CImage | _ => CText end.

(** A request to one of the generation endpoints of [api/generation.py],
    with the inputs its handler reads. *)
Inductive ApiCall :=
| CallMeta (uid sid : Z) (full_prompt : string) (itok : Z)
| CallArcs (uid sid : Z) (full_prompt : string) (itok : Z)
| CallSummaries (uid sid : Z) (full_prompt : string) (itok : Z)
| CallChapterGuide (uid sid : Z) (full_prompt : string) (itok : Z)
| CallChapter (uid sid chapter_num : Z) (full_prompt : string) (itok : Z)
| CallAllChapters (uid sid : Z) (chapter_inputs : list (string * Z))
| CallCoverImage (uid sid : Z) (cover_prompt : string)
| CallChapterImage (uid sid cid : Z) (chapter_prompt : string).

Definition run_api (c : ApiCall) : M Response :=
  match c with
  | CallMeta uid sid p itok => api_generate_meta uid sid p itok
  | CallArcs uid sid p itok => api_generate_arcs uid sid p itok
  | CallSummaries uid sid p itok => api_generate_summaries uid sid p itok
  | CallChapterGuide uid sid p itok => api_generate_chapter_guide uid sid p itok
  | CallChapter uid sid n p itok => api_generate_chapter uid sid n p itok
  | CallAllChapters uid sid ins => api_generate_all_chapters uid sid ins
  | CallCoverImage uid sid p => api_generate_cover_image uid sid p
  | CallChapterImage uid sid cid p => api_generate_chapter_image uid sid cid p
  end.

(** The user and the generation kind of a request. *)
Definition api_user (c : ApiCall) : Z :=
  match c with
  | CallMeta uid _ _ _ | CallArcs uid _ _ _ | CallSummaries uid _ _ _
  | CallChapterGuide uid _ _ _ | CallChapter uid _ _ _ _ | CallAllChapters uid _ _
  | CallCoverImage uid _ _ | CallChapterImage uid _ _ _ => uid
  end.

Definition api_kind (c : ApiCall) : GenType :=
  match c with
  | CallMeta _ _ _ _ => GMeta
  | CallArcs _ _ _ _ => GStoryArcs
  | CallSummaries _ _ _ _ => GSummaries
  | CallChapterGuide _ _ _ _ => GChapterGuide
  | CallChapter _ _ _ _ _ | CallAllChapters _ _ _ => GChapter
  | CallCoverImage _ _ _ | CallChapterImage _ _ _ _ => GImage
  end.

(** The prefix every dispatcher starts with: the current user, then the
    overdraft guard of the endpoint's kind. *)
Definition guarded (uid : Z) (g : GenType) (body : User -> M Response) : M Response :=
  user <- get_current_user uid ;
  blocked <- is_last_generation_and_negative_creds user g ;
  if blocked then notify "Top up your credits to see generation" uid ;; ret RGuardBlocked else
  body user.

(** The trivial relation on states. *)
Definition any_step (s s' : St) : Prop := True.

(** [o'] is the row [o] or, for a user [may] allows, [o] with one credit
    balance of category [k] replaced. *)
Definition credit_moves (may : Z -> Prop) (k : CreditKind) (v : Z) (o o' : option User) : Prop :=
  o' = o \/ (may v /\ exists u x, o = Some u /\ o' = Some (set_credits k x u)).

(** The rows of [db] and [sess] are rows of [U] changed as [credit_moves]
    allows. *)
Definition users_from (may : Z -> Prop) (k : CreditKind) (U : gmap Z User) (s : St) : Prop :=
  forall v, credit_moves may k v (U !! v) (users (db s) !! v) /\
            credit_moves may k v (U !! v) (users (sess s) !! v).

Definition users_evolve (may : Z -> Prop) (k : CreditKind) (s s' : St) : Prop :=
  forall U, users_from may k U s -> users_from may k U s'.

(** The assignment [chapter.content = content] of [generate_chapter_task]
    on the row [cid]. *)
Definition set_content (cid : Z) (content : string) (c' : ChapterRow) : ChapterRow :=
  if bool_decide (chapter_id c' = cid)
  then mkChapter (chapter_id c') (chapter_story_id c') (chapter_number c')
         (chapter_title c') (chapter_summary c') (Some content) (chapter_image_key c')
  else c'.

(* ------------------------------------------------------------------ *)
(** ** The story guard of [helpers.py] *)

Module Auth.

(** Python truthiness of a decoded JSON value (numbers are integers). *)
Definition truthy (j : Json) : bool :=
  match j with
  | JNull => false
  | JBool b => b
  | JNum n => negb (n =? 0)
  | JStr s => negb (String.eqb s "")
  | JArr l => negb (Nat.eqb (length l) 0)
  | JObj kvs => negb (Nat.eqb (length kvs) 0)
  end.

(** The columns the decorator reads: a user's [id] and [role.name]
    ([None] when the user has no role), and each story's [user_id]. *)
Record UserRow := mkUserRow { id : Z; role_name : option string }.
Record Tables := mkTables { user_rows : gmap Z UserRow; story_owner : gmap Z Z }.

(** The outcomes of a request through [is_story_author_or_admin]. *)
Inductive Outcome :=
| RedirectLogin                 (* redirect(url_for("auth_views.login")) *)
| RedirectIndex                 (* redirect(url_for("index")) *)
| Error400                      (* "story_id not provided" *)
| Error404                      (* "Story not found" *)
| Error403                      (* "Unauthorized" *)
| RunView                       (* the wrapped view is called *)
| Raised (e : string).          (* an exception leaves the decorator *)

Section Decorators.

(** [decode_token(token)] ([None] when it raises: bad signature, expired
    token, ...); [pk v]: the primary key [Model.query.get(v)] looks up
    ([None] when the query raises on [v]); whether the user and the story
    query raise. *)
Variable decode_token : string -> option Json.
Variable pk : Json -> option Z.
Variable user_query_raises story_query_raises : bool.

(** [get_current_user()] *)
Definition get_current_user (t : Tables) (cookie : option string) : option UserRow :=
  match cookie with
  | None => None
  | Some token =>
    if String.eqb token "" then None else
    match decode_token token with
    | None => None
    | Some decoded_token =>
      match PyJson.get decoded_token "sub" with
      | Err _ => None
      | Ok None => None
      | Ok (Some user_id) =>
        if negb (truthy user_id) then None
        else if user_query_raises then None
        else match pk user_id with
             | None => None
             | Some k => user_rows t !! k
             end
      end
    end
  end.

(** [story_id = kwargs.get("story_id")]; when falsy,
    [(request.get_json() or {}).get("story_id")]. [get_json] is what
    [request.get_json()] returns or raises. *)
Definition requested_story_id (kw_story_id : option Z) (get_json : result Json)
    : result (option Json) :=
  let from_body :=
    let! json_data := get_json in
    PyJson.get (if truthy json_data then json_data else JObj []) "story_id" in
  match kw_story_id with
  | Some n => if n =? 0 then from_body else Ok (Some (JNum n))
  | None => from_body
  end.

(** The wrapper [is_story_author_or_admin] puts around a story view. *)
Definition is_story_author_or_admin (t : Tables) (cookie : option string)
    (kw_story_id : option Z) (get_json : result Json) : Outcome :=
  match get_current_user t cookie with
  | None => RedirectLogin
  | Some user =>
    match requested_story_id kw_story_id get_json with
    | Err e => Raised e
    | Ok None => Error400
    | Ok (Some story_id) =>
      if negb (truthy story_id) then Error400
      else if story_query_raises then Raised "story query failed"
      else match pk story_id with
           | None => Raised "story query failed"
           | Some k =>
             match story_owner t !! k with
             | None => Error404
             | Some owner =>
               if negb (owner =? id user) then
                 match role_name user with
                 | None => Raised "'NoneType' object has no attribute 'name'"
                 | Some r => if String.eqb r "admin" then RunView else Error403
                 end
               else RunView
             end
           end
    end
  end.

(** The wrapper [is_admin] puts around an admin view. *)
Definition is_admin (t : Tables) (cookie : option string) : Outcome :=
  match get_current_user t cookie with
  | None => RedirectIndex
  | Some user =>
    match role_name user with
    | None => Raised "'NoneType' object has no attribute 'name'"
    | Some r => if String.eqb r "admin" then RunView else RedirectIndex
    end
  end.

End Decorators.

End Auth.

(** A token service and key coercion for the examples: the token ["t5"]
    decodes to [{"sub": "5"}], keys are numbers or numeric strings. *)
Definition demo_decode (token : string) : option Json :=
  if String.eqb token "t5" then Some (JObj [("sub", JStr "5")]) else None.
Definition demo_pk (j : Json) : option Z :=
  match j with
  | JNum n => Some n
  | JStr "5" => Some 5
  | JStr "9" => Some 9
  | _ => None
  end.
Definition demo_tables : Auth.Tables :=
  Auth.mkTables {[5 := Auth.mkUserRow 5 (Some "user")]} {[9 := 5; 10 := 6]}.

(* ------------------------------------------------------------------ *)
(** ** The password policy of [helpers.py] *)

(** [re.compile(r"^(?=.*[a-z])(?=.*[A-Z])(?=.*\d)(?=.*[\W_]).{8,}$").match]
    on a [str], given as its list of code points. The matcher is a
    backtracking one in continuation-passing style: [matches r pos s k]
    is whether [r] matches a prefix of the rest [s] (at index [pos]) so
    that the continuation [k] accepts what follows, as in [re]. *)
Module PasswordPolicy.

Inductive regex :=
| RBegin
| REnd
| RClass (f : Z -> bool)
| RStar (f : Z -> bool)
| RAtLeast (n : nat) (f : Z -> bool)
| RLook (r : regex)
| RSeq (r1 r2 : regex).

Fixpoint star (f : Z -> bool) (pos : nat) (s : list Z) (k : nat -> list Z -> bool) : bool :=
  (match s with
   | c :: s' => f c && star f (S pos) s' k
   | [] => false
   end) || k pos s.

Fixpoint rep (n : nat) (f : Z -> bool) (pos : nat) (s : list Z) (k : nat -> list Z -> bool) : bool :=
  match n with
  | O => k pos s
  | S n' => match s with
            | c :: s' => f c && rep n' f (S pos) s' k
            | [] => false
            end
  end.

Fixpoint matches (r : regex) (pos : nat) (s : list Z) (k : nat -> list Z -> bool) : bool :=
  match r with
  | RBegin => Nat.eqb pos 0 && k pos s
  | REnd => (match s with [] => true | [c] => Z.eqb c 10 | _ => false end) && k pos s
  | RClass f => match s with c :: s' => f c && k (S pos) s' | [] => false end
  | RStar f => star f pos s k
  | RAtLeast n f => rep n f pos s (fun p s' => star f p s' k)
  | RLook r => matches r pos s (fun _ _ => true) && k pos s
  | RSeq r1 r2 => matches r1 pos s (fun p s' => matches r2 p s' k)
  end.

Definition re_match (r : regex) (s : list Z) : bool := matches r 0 s (fun _ _ => true).
Section Classes.
Variable unicode_digit unicode_word : Z -> bool.

Definition is_lower (c : Z) : bool := (97 <=? c) && (c <=? 122).
Definition is_upper (c : Z) : bool := (65 <=? c) && (c <=? 90).
Definition is_digit (c : Z) : bool :=
  ((48 <=? c) && (c <=? 57)) || ((128 <=? c) && unicode_digit c).
Definition is_word (c : Z) : bool :=
  is_lower c || is_upper c || ((48 <=? c) && (c <=? 57)) || (c =? 95) ||
  ((128 <=? c) && unicode_word c).
Definition is_special (c : Z) : bool := negb (is_word c) || (c =? 95).
Definition not_newline (c : Z) : bool := negb (c =? 10).

Definition lookahead_any (f : Z -> bool) : regex :=
  RLook (RSeq (RStar not_newline) (RClass f)).

Definition password_pattern : regex :=
  RSeq RBegin
    (RSeq (lookahead_any is_lower)
    (RSeq (lookahead_any is_upper)
    (RSeq (lookahead_any is_digit)
    (RSeq (lookahead_any is_special)
    (RSeq (RAtLeast 8 not_newline) REnd))))).

Definition is_valid_password (password : option (list Z)) : result bool :=
  match password with
  | None => Err "expected string or bytes-like object, got 'NoneType'"
  | Some p => Ok (re_match password_pattern p)
  end.

End Classes.

(** A line: no ["\n"] ([.] matches every other code point). *)
Definition one_line (s : list Z) : Prop := Forall (fun c => not_newline c = true) s.

(** What a lookahead [(?=.*[f])] at the start checks. *)
Definition first_line_has (f : Z -> bool) (s : list Z) : Prop :=
  exists pre c post, s = pre ++ c :: post /\ one_line pre /\ f c = true.

End PasswordPolicy.

(** The code points of an ASCII string. *)
Definition ascii_codes (s : string) : list Z :=
  map (fun a => Z.of_nat (nat_of_ascii a)) (String.list_ascii_of_string s).

(** The chapter reconciliation of a 50-token prompt and a one-token
    reply at the seeded prices. *)
Definition small_chapter_actual : Cost := mkCost 50 1 66.6 16.65 1 2 0 0 2.

(** The chapter prediction for a 40-token prompt at the seeded prices. *)
Definition small_chapter_prediction : Cost := mkCost 40 300 66.6 16.65 1 2 18 36 38.

(** User 1 (100 text credits) holds the lock for the pending chapter job
    7; chapter 1 of story 1 is the row [chs] has, if any. *)
Definition chapter_job_state (chs : list ChapterRow) : St :=
  fixture_state
    (fixture_db (user_with 100 0) [pending_log 1 7 GChapter (PyInt 8) None 50] chs default_pricing)
    {[1]} [].

(** User 1 (100 text credits, no lock), story 1 with the rows [chs]. *)
Definition idle_state (chs : list ChapterRow) : St :=
  fixture_state (fixture_db (user_with 100 0) [] chs default_pricing) ∅ [].

(** The overdrawn user of [overdrawn_state] dispatches an image for
    chapter 11 (image credits are positive): the queued job. *)
Definition chapter_image_dispatched : St :=
  snd (api_generate_chapter_image 1 1 11 "a picture" overdrawn_state).
Definition chapter_image_task : Task :=
  TImage 1 1 "stories/1/chapters/11.jpg" "a picture" 1 (PyFloat 4) (Some 11).

(** A pending story-arcs job (task 7) of user 1. *)
Definition arcs_pending_state : St :=
  fixture_state
    (fixture_db (user_with 100 0) [pending_log 1 7 GStoryArcs (PyInt 60) None 50] [] default_pricing)
    {[1]} [].

(** A model reply that decodes to a number. *)
Definition number_loads (_ : string) : option Json := Some (JNum 3).

(* ================================================================== *)
(** * Proofs *)

(* ------------------------------------------------------------------ *)
(** ** The program logic *)

Section Hoare.
Context {R : St -> St -> Prop} `{!PreOrder R}.

Lemma hoare_ret {A} (Q : A -> Prop) a : Q a -> hoare R Q (ret a).
Proof. intros HQ s; split; [reflexivity | by intros ? [= <-]]. Qed.

Lemma hoare_raise {A} (Q : A -> Prop) e : hoare R Q (raise e).
Proof. intros s; split; [reflexivity | done]. Qed.

Lemma hoare_lift {A} (Q : A -> Prop) r : (forall a, r = Ok a -> Q a) -> hoare R Q (lift r).
Proof. intros HQ s; split; [reflexivity | exact HQ]. Qed.

Lemma hoare_gets {A} (Q : A -> Prop) f : (forall s, Q (f s)) -> hoare R Q (gets f).
Proof. intros HQ s; split; [reflexivity | by intros ? [= <-]]. Qed.

Lemma hoare_modify (Q : unit -> Prop) f : (forall s, R s (f s)) -> Q tt -> hoare R Q (modify f).
Proof. intros Hf HQ s; split; [apply Hf | by intros [] _]. Qed.

Lemma hoare_io (Q : unit -> Prop) : (forall s, R s (tick s)) -> Q tt -> hoare R Q io.
Proof.
  intros Ht HQ s; unfold io; destruct (decide _); split; try apply Ht; by intros [] _.
Qed.

Lemma hoare_enqueue (Q : Z -> Prop) mk :
  (forall s, R s (tick s)) -> (forall t s, R s (push_task t s)) -> (forall z, Q z) ->
  hoare R Q (enqueue mk).
Proof.
  intros Ht Hp HQ s; unfold enqueue, bind, io; destruct (decide _); simpl; split;
    try done; try apply Ht.
  etrans; [apply Ht | apply Hp].
Qed.

Lemma hoare_bind {A B} (Q : B -> Prop) (m : M A) (k : A -> M B) :
  hoare R (fun _ => True) m -> (forall a, hoare R Q (k a)) -> hoare R Q (bind m k).
Proof.
  intros Hm Hk s; unfold bind.
  destruct (Hm s) as [Hs _]; destruct (m s) as [[a|e] s'] eqn:E; simpl in *.
  - destruct (Hk a s') as [Hs' HQ]; split; [etrans; eauto | exact HQ].
  - split; [exact Hs | done].
Qed.

Lemma hoare_try_except {A} (Q : A -> Prop) (m : M A) h :
  hoare R Q m -> (forall e, hoare R Q (h e)) -> hoare R Q (try_except m h).
Proof.
  intros Hm Hh s; unfold try_except.
  destruct (Hm s) as [Hs HQ]; destruct (m s) as [[a|e] s'] eqn:E; simpl in *.
  - split; [exact Hs | exact HQ].
  - destruct (Hh e s') as [Hs' HQ']; split; [etrans; eauto | exact HQ'].
Qed.

Lemma hoare_try_finally {A} (Q : A -> Prop) (m : M A) f :
  hoare R Q m -> hoare R (fun _ => True) f -> hoare R Q (try_finally m f).
Proof.
  intros Hm Hf s; unfold try_finally.
  destruct (Hm s) as [Hs HQ]; destruct (m s) as [r s'] eqn:E; simpl in *.
  destruct (Hf s') as [Hs' _]; destruct (f s') as [[]  s''] eqn:F; simpl in *;
    split; try (etrans; eauto); auto; done.
Qed.

Lemma hoare_for_each {A} (l : list A) start body :
  (forall i x, hoare R (fun _ => True) (body i x)) ->
  hoare R (fun _ => True) (for_each start l body).
Proof.
  intros Hb; revert start; induction l as [|x l IH]; intros start; simpl.
  - by apply hoare_ret.
  - apply hoare_bind; [apply Hb | intros; apply IH].
Qed.

End Hoare.

#[global] Instance locks_shrink_preorder : PreOrder locks_shrink.
Proof. split; [intros s; unfold locks_shrink; set_solver | intros ??? H1 H2; unfold locks_shrink in *; set_solver]. Qed.

#[global] Instance logs_evolve_preorder : PreOrder logs_evolve.
Proof. split; [intros s L0 H; exact H | intros ??? H1 H2 L0 H; auto]. Qed.

Ltac hoare_unfold :=
  unfold get_user, get_story, find_log, commit, rollback, session_remove, sess_update,
    notify, socket_emit, clear_user_generation_lock, spend_credits, estimate, predict,
    debit_and_record, text_failure, worker_finally, json_loads_or_raise, upsert_summary,
    group_guide, get_current_user, is_last_generation_and_negative_creds, enqueue_and_log,
    predict_image, add_log.

(** One symbolic-execution step on a [hoare] goal. *)
Ltac hoare_step :=
  match goal with
  | |- hoare _ _ (bind _ _) => apply hoare_bind; [ | intro ]
  | |- hoare _ _ (try_except _ _) => apply hoare_try_except; [ | intro ]
  | |- hoare _ _ (try_finally _ _) => apply hoare_try_finally
  | |- hoare _ _ (for_each _ _ _) => apply hoare_for_each; intros ? ?
  | |- hoare _ _ (ret _) => apply hoare_ret
  | |- hoare _ _ (raise _) => apply hoare_raise
  | |- hoare _ _ (lift _) => apply hoare_lift
  | |- hoare _ _ (gets _) => apply hoare_gets
  | |- hoare _ _ (modify _) => apply hoare_modify
  | |- hoare _ _ io => apply hoare_io
  | |- hoare _ _ (enqueue _) => apply hoare_enqueue
  | |- hoare _ _ (match ?x with _ => _ end) => destruct x
  | |- hoare _ _ ((fun _ => _) _) => cbv beta
  | |- hoare _ _ (let _ := _ in _) => cbv zeta
  end.

(** Run a whole program; [side] discharges the frame conditions of the
    relation at hand. *)
Ltac hoare_auto side :=
  hoare_unfold;
  repeat first [ hoare_step | progress hoare_unfold | solve [side] | exact I
               | solve [intros; exact I] | (cbv beta; congruence) ].

Ltac locks_side := intros; unfold locks_shrink; simpl; set_solver.

(** Drop the fault tests of a run with no failing external call. *)
Ltac drop_no_faults :=
  repeat (match goal with
          | |- context [decide (?x ∈ @nil nat)] =>
            let Hx := fresh in
            destruct (decide (x ∈ @nil nat)) as [Hx|_]; [exfalso; by apply not_elem_of_nil in Hx |]
          end; cbn).


(* ------------------------------------------------------------------ *)
(** ** Lock release by the workers *)

(** The [finally] block leaves the user's key absent, whatever the body
    did. *)
Lemma try_finally_worker_finally {A} (m : M A) (uid : Z) (s : St) :
  uid ∉ locks (snd (try_finally m (worker_finally uid) s)).
Proof.
  unfold try_finally, worker_finally, bind, clear_user_generation_lock, session_remove, modify.
  destruct (m s) as [r s']; simpl; set_solver.
Qed.

(** Every worker is [log_entry <- find_log ...; try ... finally ...]: the
    key is present at the end iff the log lookup raised and the key was
    present at the start. *)
Lemma worker_lock_shape {A} (tid uid : Z) (g : GenType) (body : option Z -> M A) (s : St) :
  uid ∈ locks (snd (bind (find_log tid uid g) (fun e => try_finally (body e) (worker_finally uid)) s))
  <-> clock s ∈ faults s /\ uid ∈ locks s.
Proof.
  unfold find_log, bind at 1 2, io, gets.
  destruct (decide (clock s ∈ faults s)) as [Hf|Hf]; simpl.
  - tauto.
  - split; [intros H; exfalso; eapply try_finally_worker_finally; exact H | tauto].
Qed.

(** C1: after a worker run for task [t], the Generation Lock of
    [task_user t] is absent, for every reply, every [json.loads] and
    tokenizer and every pattern of exceptions -- except when the initial
    [GenerationLog] lookup raises: it runs before the [try], so the
    [finally] block does not run and a key that was present stays. *)
Theorem worker_lock_release (json_loads : string -> option Json)
    (count_tokens : string -> string -> Z) (t : Task) (reply : string) (s : St) :
  task_user t ∈ locks (snd (run_task json_loads count_tokens t reply s))
  <-> clock s ∈ faults s /\ task_user t ∈ locks s.
Proof.
  destruct t; simpl;
    [ unfold generate_image_task | unfold generate_meta_task | unfold generate_story_arcs_task
    | unfold generate_summaries_task | unfold generate_chapter_guide_task
    | unfold generate_chapter_task ];
    apply worker_lock_shape.
Qed.

(** C4: the cleanup block of the image worker deletes the user's
    Generation Lock, even when that key is held by another (text) job of
    the same user -- image dispatch never acquires it. The hypothesis on
    the first external call says that the worker reaches its [try]; the
    run where the lookup placed before the [try] raises is the defect of
    C1. *)
Theorem image_worker_clears_foreign_lock (tid sid : Z) (image_key prompt : string) (uid : Z)
    (credit_cost : PyNum) (chapter : option Z) (s : St) :
  uid ∈ locks s -> clock s ∉ faults s ->
  uid ∉ locks (snd (generate_image_task tid sid image_key prompt uid credit_cost chapter s)).
Proof.
  intros _ Hf H. unfold generate_image_task in H.
  apply worker_lock_shape in H. tauto.
Qed.

Lemma image_worker_clears_foreign_lock_witness :
  1 ∈ locks locked_state /\ (clock locked_state ∉ faults locked_state) /\
  1 ∉ locks (snd (generate_image_task 7 1 "stories/1/cover.jpg" "a cover" 1 (PyFloat 4) None
                    locked_state)).
Proof.
  assert (H1 : 1 ∈ locks locked_state) by (simpl; set_solver).
  assert (H2 : clock locked_state ∉ faults locked_state) by (simpl; set_solver).
  split; [exact H1 | split; [exact H2 |]].
  exact (image_worker_clears_foreign_lock 7 1 "stories/1/cover.jpg" "a cover" 1 (PyFloat 4) None
           locked_state H1 H2).
Defined.

(* ------------------------------------------------------------------ *)
(** ** Lock acquisition by the dispatchers *)

Lemma arcs_dispatch_lock_free (uid sid : Z) (full_prompt : string) (itok : Z) :
  hoare locks_shrink (fun r => r <> RInProgress) (api_generate_arcs uid sid full_prompt itok).
Proof. unfold api_generate_arcs. hoare_auto locks_side. Qed.

Lemma chapter_guide_dispatch_lock_free (uid sid : Z) (full_prompt : string) (itok : Z) :
  hoare locks_shrink (fun r => r <> RInProgress) (api_generate_chapter_guide uid sid full_prompt itok).
Proof. unfold api_generate_chapter_guide. hoare_auto locks_side. Qed.

Lemma hoare_apply {A} {R : St -> St -> Prop} {Q : A -> Prop} {m : M A} (s : St) :
  hoare R Q m -> R s (snd (m s)) /\ match fst (m s) with Ok a => Q a | Err _ => True end.
Proof. intros H; destruct (H s) as [H1 H2]; split; [exact H1 |]. destruct (fst (m s)); auto. Qed.

(** C2: the story-arcs and chapter-guide dispatchers never try to acquire
    the Generation Lock: for every request and state they never answer
    "already in progress" and never add a lock key. In particular, while
    user 1 holds the lock, a story-arcs request is queued and writes a
    pending [GenerationLog] row. *)
Theorem arcs_and_guide_dispatch_skip_lock :
  (forall uid sid full_prompt itok s,
     fst (api_generate_arcs uid sid full_prompt itok s) <> Ok RInProgress /\
     locks (snd (api_generate_arcs uid sid full_prompt itok s)) ⊆ locks s) /\
  (forall uid sid full_prompt itok s,
     fst (api_generate_chapter_guide uid sid full_prompt itok s) <> Ok RInProgress /\
     locks (snd (api_generate_chapter_guide uid sid full_prompt itok s)) ⊆ locks s) /\
  (1 ∈ locks locked_rich_state /\
   fst (api_generate_arcs 1 1 "p" 1000 locked_rich_state) = Ok (RQueued (Some 1)) /\
   logs (db (snd (api_generate_arcs 1 1 "p" 1000 locked_rich_state)))
     = [pending_log 1 1 GStoryArcs (PyInt 60) None 100]).
Proof.
  split; [|split].
  - intros uid sid full_prompt itok s.
    destruct (hoare_apply s (arcs_dispatch_lock_free uid sid full_prompt itok)) as [H1 H2].
    split; [destruct (fst _); congruence | exact H1].
  - intros uid sid full_prompt itok s.
    destruct (hoare_apply s (chapter_guide_dispatch_lock_free uid sid full_prompt itok)) as [H1 H2].
    split; [destruct (fst _); congruence | exact H1].
  - split; [simpl; set_solver | split; vm_compute; reflexivity].
Qed.

(** C3: rejections for insufficient credits. The chapter-content
    dispatcher behaves as specified on Scenario B (required 8, available
    5, no row, no lock). The summaries dispatcher acquires the lock and then
    rejects without releasing it, so the key outlives the rejected request.
    The cover-image rejection carries no available amount. *)
Theorem insufficient_credit_rejections :
  (fst (api_generate_chapter 1 1 1 "p" 4000 scenario_B_state)
     = Ok (RNotEnoughCredits (PyInt 8) (Some 5)) /\
   logs (db (snd (api_generate_chapter 1 1 1 "p" 4000 scenario_B_state))) = [] /\
   1 ∉ locks (snd (api_generate_chapter 1 1 1 "p" 4000 scenario_B_state))) /\
  ((1 ∉ locks broke_state) /\
   fst (api_generate_summaries 1 1 "p" 1000 broke_state)
     = Ok (RNotEnoughCredits (PyInt 48) (Some 0)) /\
   logs (db (snd (api_generate_summaries 1 1 "p" 1000 broke_state))) = [] /\
   1 ∈ locks (snd (api_generate_summaries 1 1 "p" 1000 broke_state))) /\
  fst (api_generate_cover_image 1 1 "a cover" broke_state)
    = Ok (RNotEnoughCredits (PyFloat 4) None).
Proof.
  split; [|split].
  - split; [vm_compute; reflexivity | split; [vm_compute; reflexivity | vm_compute; set_solver]].
  - split; [vm_compute; set_solver |].
    split; [vm_compute; reflexivity | split; [vm_compute; reflexivity | vm_compute; set_solver]].
  - vm_compute; reflexivity.
Qed.

(* ------------------------------------------------------------------ *)
(** ** The cost estimator *)

Lemma base_credit_cost_floor (tokens : Z) (tpc : float) (b : Z) :
  base_credit_cost true tokens tpc = Ok b -> 1 <= b.
Proof.
  unfold base_credit_cost.
  destruct (PyFloatOps.float_of_Z tokens); simpl; [|discriminate].
  destruct (PyFloatOps.div a tpc); simpl; [|discriminate].
  destruct (PyFloatOps.round0 a0); simpl; [|discriminate].
  intros [= <-]; lia.
Qed.

(** The input base cost of any text estimator is [base_credit_cost] of
    its own input token count and tokens-per-credit figure. *)
Lemma cost_core_base_input (floor : bool) (tier : Tier) (a b : string) (pr : Pricing)
    (itok otok : Z) (r : Cost) :
  cost_core floor tier a b pr itok otok = Ok r ->
  input_tokens r = itok /\
  base_credit_cost floor (input_tokens r) (input_tokens_per_credit r) = Ok (base_credit_cost_input r).
Proof.
  unfold cost_core. destruct (token_cost_config_first pr) as [c|]; [|discriminate].
  unfold base_stage. destruct (tier_prices tier c) as [[x y] z].
  destruct (tokens_per_credit x y) as [itpc|]; simpl; [|discriminate].
  destruct (tokens_per_credit x z) as [otpc|]; simpl; [|discriminate].
  destruct (base_credit_cost floor itok itpc) as [bi|] eqn:Ebi; simpl; [|discriminate].
  destruct (base_credit_cost floor otok otpc) as [bo|]; simpl; [|discriminate].
  destruct (modified_credit_cost bi _) as [mi|]; simpl; [|discriminate].
  destruct (modified_credit_cost bo _) as [mo|]; simpl; [|discriminate].
  intros [= <-]; simpl; auto.
Qed.

(** C5 (what the estimators compute): the metadata, story-arcs and
    chapter-guide estimators compute
    [max(1, round(input_tokens / input_tokens_per_credit))] on both the
    prediction and the reconciliation path, so their input base cost is at
    least 1; the summaries and chapter-content estimators compute the plain
    [round(input_tokens / input_tokens_per_credit)] on both paths, without
    the [max(1, ...)] of their siblings. *)
Theorem base_input_cost_by_kind (g : GenType) (predicted : bool) (pr : Pricing) (itok x : Z)
    (r : Cost) :
  text_estimate g predicted pr itok x = Ok r ->
  input_tokens r = itok /\
  (g ∈ [GMeta; GStoryArcs; GChapterGuide] ->
     base_credit_cost true itok (input_tokens_per_credit r) = Ok (base_credit_cost_input r) /\
     1 <= base_credit_cost_input r) /\
  (g ∈ [GSummaries; GChapter] ->
     base_credit_cost false itok (input_tokens_per_credit r) = Ok (base_credit_cost_input r)).
Proof.
  intros H.
  assert (Hk : exists floor tier a b otok,
             cost_core floor tier a b pr itok otok = Ok r /\
             (g ∈ [GMeta; GStoryArcs; GChapterGuide] -> floor = true) /\
             (g ∈ [GSummaries; GChapter] -> floor = false)).
  { destruct g, predicted; simpl in H; try discriminate;
      eexists _, _, _, _, _; (split; [exact H |]);
      split; intros Hin; rewrite ?elem_of_cons, ?elem_of_nil in Hin;
      (reflexivity || (exfalso; intuition discriminate)). }
  destruct Hk as (floor & tier & a & b & otok & Hc & Ht & Hf).
  destruct (cost_core_base_input _ _ _ _ _ _ _ _ Hc) as [Hi Hb]. rewrite Hi in Hb.
  split; [exact Hi | split].
  - intros Hin. rewrite (Ht Hin) in Hb. split; [exact Hb | eapply base_credit_cost_floor; exact Hb].
  - intros Hin. rewrite (Hf Hin) in Hb. exact Hb.
Qed.

Lemma base_input_cost_by_kind_witness :
  text_estimate GMeta false default_pricing 100 50 = Ok small_meta_actual /\
  (input_tokens small_meta_actual = 100 /\
   (GMeta ∈ [GMeta; GStoryArcs; GChapterGuide] ->
      base_credit_cost true 100 (input_tokens_per_credit small_meta_actual)
        = Ok (base_credit_cost_input small_meta_actual) /\
      1 <= base_credit_cost_input small_meta_actual) /\
   (GMeta ∈ [GSummaries; GChapter] ->
      base_credit_cost false 100 (input_tokens_per_credit small_meta_actual)
        = Ok (base_credit_cost_input small_meta_actual))).
Proof.
  assert (H : text_estimate GMeta false default_pricing 100 50 = Ok small_meta_actual)
    by (vm_compute; reflexivity).
  split; [exact H | exact (base_input_cost_by_kind GMeta false default_pricing 100 50 _ H)].
Defined.

(** The two divergences of C5: the summaries prediction of a 20-token
    prompt at the seeded prices has input base cost 0, and the metadata
    reconciliation of a 100-token prompt is floored to 1 where
    [round(100 / 6660.0)] is 0. *)
Lemma prediction_floor_counterexample :
  calculate_predicted_summaries_cost default_pricing 20 3 = Ok small_summaries_prediction /\
  base_credit_cost_input small_summaries_prediction = 0 /\
  calculate_actual_meta_cost default_pricing 100 50 = Ok small_meta_actual /\
  base_credit_cost_input small_meta_actual = 1 /\
  base_credit_cost false 100 (input_tokens_per_credit small_meta_actual) = Ok 0.
Proof. repeat split; vm_compute; reflexivity. Qed.

Lemma lookup_modifier_absent (pr : Pricing) (a : string) :
  Forall (fun cc => action cc <> a) (credit_configs pr) -> lookup_modifier pr a = PyInt 2.
Proof.
  destruct pr as [tcs ccs]; unfold lookup_modifier; simpl.
  induction 1 as [|cc ccs Hcc _ IH]; simpl; [reflexivity |].
  destruct (String.eqb_spec (action cc) a); [contradiction | exact IH].
Qed.

(** With both modifiers falling back to the int [2], a text estimator
    either doubles both base costs or fails in its pricing arithmetic. *)
Lemma cost_core_fallback (floor : bool) (tier : Tier) (a b : string) (pr : Pricing)
    (c : TokenCostConfig) (itok otok : Z) :
  token_cost_config_first pr = Some c ->
  lookup_modifier pr a = PyInt 2 -> lookup_modifier pr b = PyInt 2 ->
  match cost_core floor tier a b pr itok otok with
  | Ok r => modified_credit_cost_input r = 2 * base_credit_cost_input r /\
            modified_credit_cost_output r = 2 * base_credit_cost_output r /\
            total_credit_cost r = 2 * base_credit_cost_input r + 2 * base_credit_cost_output r
  | Err e => exists floor' tier' otok', base_stage floor' tier' c itok otok' = Err e
  end.
Proof.
  intros Hc Ha Hb. unfold cost_core. rewrite Hc, Ha, Hb.
  destruct (base_stage floor tier c itok otok) as [[[[itpc otpc] bi] bo]|e] eqn:E; simpl.
  - repeat split; lia.
  - exists floor, tier, otok; exact E.
Qed.

(** C9: when the [TokenCostConfig] row exists and no [CreditConfig] row
    carries an action name the estimator looks up, every estimator path
    uses the int multiplier [2]: the image cost is [dall_e_price_per_image * 2]
    and never fails, and each of the ten text paths returns twice the base
    costs, its only possible errors being those of the pricing arithmetic
    before the modifiers are read. *)
Theorem modifier_fallback_two (pr : Pricing) (c : TokenCostConfig) (g : GenType)
    (predicted : bool) (itok x : Z) :
  token_cost_config_first pr = Some c ->
  Forall (fun cc => action cc ∉ estimator_actions g) (credit_configs pr) ->
  match g with
  | GImage => calculate_image_cost pr =
      Ok (mkImageCost (dall_e_price_per_image c) (PyInt 2)
            (PrimFloat.mul (dall_e_price_per_image c) 2))
  | _ => match text_estimate g predicted pr itok x with
         | Ok r => modified_credit_cost_input r = 2 * base_credit_cost_input r /\
                   modified_credit_cost_output r = 2 * base_credit_cost_output r /\
                   total_credit_cost r = 2 * base_credit_cost_input r + 2 * base_credit_cost_output r
         | Err e => exists floor tier otok, base_stage floor tier c itok otok = Err e
         end
  end.
Proof.
  intros Hc Hf.
  assert (Hn : forall n, n ∈ estimator_actions g -> lookup_modifier pr n = PyInt 2).
  { intros n Hin. apply lookup_modifier_absent. eapply Forall_impl; [exact Hf |].
    intros cc Hcc E. apply Hcc. rewrite E. exact Hin. }
  destruct g;
    [ destruct predicted .. | ];
    simpl text_estimate;
    try (apply cost_core_fallback; [exact Hc | apply Hn; simpl; set_solver | apply Hn; simpl; set_solver]).
  unfold calculate_image_cost. rewrite Hc, (Hn "image") by (simpl; set_solver).
  reflexivity.
Qed.

Lemma modifier_fallback_two_witness :
  token_cost_config_first bare_pricing = Some default_token_cost_config /\
  Forall (fun cc => action cc ∉ estimator_actions GMeta) (credit_configs bare_pricing) /\
  match text_estimate GMeta true bare_pricing 10000 0 with
  | Ok r => modified_credit_cost_input r = 2 * base_credit_cost_input r /\
            modified_credit_cost_output r = 2 * base_credit_cost_output r /\
            total_credit_cost r = 2 * base_credit_cost_input r + 2 * base_credit_cost_output r
  | Err e => exists floor tier otok, base_stage floor tier default_token_cost_config 10000 otok = Err e
  end.
Proof.
  assert (H1 : token_cost_config_first bare_pricing = Some default_token_cost_config) by reflexivity.
  assert (H2 : Forall (fun cc => action cc ∉ estimator_actions GMeta) (credit_configs bare_pricing))
    by constructor.
  split; [exact H1 | split; [exact H2 |]].
  exact (modifier_fallback_two bare_pricing default_token_cost_config GMeta true 10000 0 H1 H2).
Defined.

(** C10 (Scenario A): with [cost_per_credit = 0.000999] and
    [cost_per_1m_input = 0.150] in the first [TokenCostConfig] row and a
    [meta_input] modifier of 50, the metadata prediction of a
    10,000-token prompt has [input_tokens_per_credit = 6660.0],
    [base_credit_cost_input = 2] and [modified_credit_cost_input = 100],
    whatever the other prices and modifiers. *)
Theorem scenario_A_meta_prediction (pr : Pricing) (c : TokenCostConfig) (r : Cost) :
  token_cost_config_first pr = Some c ->
  cost_per_credit c = 0.000999%float ->
  cost_per_1m_input c = 0.150%float ->
  lookup_modifier pr "meta_input" = PyFloat 50 ->
  calculate_predicted_meta_cost pr 10000 = Ok r ->
  input_tokens_per_credit r = 6660%float /\ base_credit_cost_input r = 2 /\
  modified_credit_cost_input r = 100.
Proof.
  intros Hc Hcc Hci Hm.
  unfold calculate_predicted_meta_cost, cost_core. rewrite Hc, Hm.
  unfold base_stage, tier_prices. rewrite Hcc, Hci.
  assert (E1 : tokens_per_credit 0.000999 0.150 = Ok 6660%float) by (vm_compute; reflexivity).
  assert (E2 : base_credit_cost true 10000 6660 = Ok 2) by (vm_compute; reflexivity).
  assert (E3 : modified_credit_cost 2 (PyFloat 50) = Ok 100) by (vm_compute; reflexivity).
  rewrite E1; simpl rbind.
  destruct (tokens_per_credit 0.000999 (cost_per_1m_output c)) as [otpc|]; simpl rbind;
    [|discriminate].
  rewrite E2; simpl rbind.
  destruct (base_credit_cost true 200 otpc) as [bo|]; simpl rbind; [|discriminate].
  rewrite E3; simpl rbind.
  destruct (modified_credit_cost bo _) as [mo|]; simpl rbind; [|discriminate].
  intros [= <-]; simpl; auto.
Qed.

Lemma scenario_A_meta_prediction_witness :
  calculate_predicted_meta_cost default_pricing 10000 = Ok scenario_A_cost /\
  input_tokens_per_credit scenario_A_cost = 6660%float /\
  base_credit_cost_input scenario_A_cost = 2 /\ modified_credit_cost_input scenario_A_cost = 100.
Proof.
  assert (H : calculate_predicted_meta_cost default_pricing 10000 = Ok scenario_A_cost)
    by (vm_compute; reflexivity).
  split; [exact H |].
  exact (scenario_A_meta_prediction default_pricing default_token_cost_config scenario_A_cost
           eq_refl eq_refl eq_refl eq_refl H).
Defined.

(* ------------------------------------------------------------------ *)
(** ** The overdraft guard *)

Lemma NoDup_map_eq {A B} (f : A -> B) (ls : list A) (x y : A) :
  NoDup (map f ls) -> x ∈ ls -> y ∈ ls -> f x = f y -> x = y.
Proof.
  induction ls as [|a ls IH]; simpl; intros Hn Hx Hy E.
  - by apply not_elem_of_nil in Hx.
  - apply NoDup_cons in Hn as [Ha Hn].
    apply elem_of_cons in Hx, Hy.
    assert (Hin : forall z, z ∈ ls -> f z ∈ map f ls).
    { intros z Hz. apply list_elem_of_In. apply in_map. apply list_elem_of_In. exact Hz. }
    destruct Hx as [->|Hx], Hy as [->|Hy]; auto.
    + exfalso. apply Ha. rewrite E. auto.
    + exfalso. apply Ha. rewrite <- E. auto.
Qed.

Lemma last_log_of_fold (uid : Z) (ls : list GenerationLog) (acc : option GenerationLog) (l : GenerationLog) :
  (forall b, acc = Some b -> log_user_id b = uid) ->
  fold_left (fun acc l =>
               if bool_decide (log_user_id l = uid) then
                 match acc with
                 | Some best => if (log_id best <? log_id l) then Some l else acc
                 | None => Some l
                 end
               else acc) ls acc = Some l ->
  (acc = Some l \/ l ∈ ls) /\ log_user_id l = uid /\
  (forall b, acc = Some b -> log_id b <= log_id l) /\
  (forall l', l' ∈ ls -> log_user_id l' = uid -> log_id l' <= log_id l).
Proof.
  revert acc. induction ls as [|x ls IH]; intros acc Hacc; simpl.
  - intros ->. split; [left; reflexivity |]. split; [apply Hacc; reflexivity |].
    split; [intros b [= ->]; lia | intros l' Hl'; by apply not_elem_of_nil in Hl'].
  - case_bool_decide as Hx.
    + destruct acc as [b|].
      * destruct (log_id b <? log_id x) eqn:Eb.
        -- intros Hf. apply Z.ltb_lt in Eb.
           destruct (IH (Some x) ltac:(intros ? [= <-]; exact Hx) Hf) as (H1 & H2 & H3 & H4).
           specialize (H3 x eq_refl).
           split.
           { destruct H1 as [[= <-]|H1]; right; [apply list_elem_of_here | apply list_elem_of_further; exact H1]. }
           split; [exact H2 |]. split; [intros b' [= <-]; lia |].
           intros l' Hl' Hu. apply elem_of_cons in Hl' as [->|Hl']; [lia | auto].
        -- intros Hf. apply Z.ltb_ge in Eb.
           destruct (IH (Some b) Hacc Hf) as (H1 & H2 & H3 & H4).
           specialize (H3 b eq_refl).
           split; [destruct H1 as [E|H1]; [left; exact E | right; apply list_elem_of_further; exact H1] |].
           split; [exact H2 |]. split; [intros b' [= <-]; lia |].
           intros l' Hl' Hu. apply elem_of_cons in Hl' as [->|Hl']; [lia | auto].
      * intros Hf.
        destruct (IH (Some x) ltac:(intros ? [= <-]; exact Hx) Hf) as (H1 & H2 & H3 & H4).
        specialize (H3 x eq_refl).
        split; [destruct H1 as [[= <-]|H1]; right; [apply list_elem_of_here | apply list_elem_of_further; exact H1] |].
        split; [exact H2 |]. split; [intros b' [=] |].
        intros l' Hl' Hu. apply elem_of_cons in Hl' as [->|Hl']; [lia | auto].
    + intros Hf. destruct (IH acc Hacc Hf) as (H1 & H2 & H3 & H4).
      split; [destruct H1 as [E|H1]; [left; exact E | right; apply list_elem_of_further; exact H1] |].
      split; [exact H2 |]. split; [exact H3 |].
      intros l' Hl' Hu. apply elem_of_cons in Hl' as [->|Hl']; [contradiction | auto].
Qed.

Lemma last_log_of_fold_none (uid : Z) (ls : list GenerationLog) (acc : option GenerationLog) :
  fold_left (fun acc l =>
               if bool_decide (log_user_id l = uid) then
                 match acc with
                 | Some best => if (log_id best <? log_id l) then Some l else acc
                 | None => Some l
                 end
               else acc) ls acc = None ->
  acc = None /\ (forall l', l' ∈ ls -> log_user_id l' <> uid).
Proof.
  revert acc. induction ls as [|x ls IH]; intros acc; simpl.
  - intros ->. split; [reflexivity | intros l' Hl'; by apply not_elem_of_nil in Hl'].
  - intros Hf. apply IH in Hf as [Ha Hn].
    case_bool_decide as Hx; [destruct acc as [b|]; [destruct (log_id b <? log_id x)|]; discriminate |].
    split; [exact Ha |]. intros l' Hl'. apply elem_of_cons in Hl' as [->|Hl']; auto.
Qed.

(** [last_log_of] picks the user's row with the highest id. *)
Lemma last_log_of_max (ls : list GenerationLog) (uid : Z) (l : GenerationLog) :
  NoDup (map log_id ls) ->
  last_log_of ls uid = Some l <->
  l ∈ ls /\ log_user_id l = uid /\
  (forall l', l' ∈ ls -> log_user_id l' = uid -> log_id l' <= log_id l).
Proof.
  intros Hn. unfold last_log_of. split.
  - intros Hf. destruct (last_log_of_fold uid ls None l ltac:(discriminate) Hf) as (H1 & H2 & _ & H4).
    destruct H1 as [H1|H1]; [discriminate |]. auto.
  - intros (Hl & Hu & Hm).
    destruct (fold_left _ ls None) as [l0|] eqn:E.
    + destruct (last_log_of_fold uid ls None l0 ltac:(discriminate) E) as (H1 & H2 & _ & H4).
      destruct H1 as [H1|H1]; [discriminate |].
      f_equal. apply (NoDup_map_eq log_id ls); auto.
      specialize (Hm l0 H1 H2). specialize (H4 l Hl Hu). lia.
    + apply last_log_of_fold_none in E as [_ E]. exfalso. exact (E l Hl Hu).
Qed.

#[global] Instance any_step_preorder : PreOrder any_step.
Proof. split; repeat intro; exact I. Qed.

Lemma hoare_set_lock_any uid : hoare any_step (fun _ => True) (set_user_generation_lock uid).
Proof. intros s. split; [exact I | intros; exact I]. Qed.

Ltac any_side :=
  first [ intros; exact I | apply hoare_set_lock_any | intros; unfold not_enough; discriminate ].

Lemma run_api_guarded (c : ApiCall) :
  exists B, run_api c = guarded (api_user c) (api_kind c) B /\
            forall u, hoare any_step (fun r => r <> RGuardBlocked) (B u).
Proof.
  destruct c; eexists; (split; [reflexivity | intros u; cbv beta]); hoare_auto any_side.
Qed.

Lemma guarded_spec (uid : Z) (g : GenType) (B : User -> M Response) (s : St) (u : User) :
  faults s = [] -> users (sess s) !! uid = Some u ->
  (forall u, hoare any_step (fun r => r <> RGuardBlocked) (B u)) ->
  (fst (guarded uid g B s) = Ok RGuardBlocked <->
   last_generation_and_negative (logs (sess s)) u g = true) /\
  (fst (guarded uid g B s) = Ok RGuardBlocked ->
   queue (snd (guarded uid g B s)) = queue s /\ locks (snd (guarded uid g B s)) = locks s /\
   db (snd (guarded uid g B s)) = db s).
Proof.
  destruct s as [d ss lk q nt ev ck fs]. cbn [faults sess]. intros -> Hu HB.
  unfold guarded, get_current_user, get_user, is_last_generation_and_negative_creds, notify,
    bind, io, gets, ret, modify, tick, push_event.
  cbn. drop_no_faults. rewrite Hu. cbn. drop_no_faults.
  destruct (last_generation_and_negative (logs ss) u g) eqn:E; cbn.
  - split; [split; reflexivity | intros _; auto].
  - match goal with |- context [B u ?s'] => destruct (HB u s') as [_ HQ]; destruct (B u s') as [r s''] end.
    cbn. split; [split; [intros H; exfalso; exact (HQ _ H eq_refl) | discriminate] |].
    intros H; exfalso; exact (HQ _ H eq_refl).
Qed.

Lemma last_generation_and_negative_iff (ls : list GenerationLog) (u : User) (t : GenType) :
  last_generation_and_negative ls u t = true <->
  exists l, last_log_of ls (user_id u) = Some l /\ generation_type l = t /\
            credit_negative t u = true.
Proof.
  unfold last_generation_and_negative.
  destruct (last_log_of ls (user_id u)) as [l|].
  - destruct (decide (generation_type l = t)) as [E|E]; split.
    + intros H; exists l; auto.
    + intros (l' & [= <-] & _ & H); exact H.
    + discriminate.
    + intros (l' & [= <-] & E' & _); contradiction.
  - split; [discriminate | intros (l' & H & _); discriminate].
Qed.

(** C8 (as the code has it): when the user's row exists, no external call
    fails and the log ids are distinct (they are the table's primary key),
    a dispatch request of kind [K] is rejected by the guard -- it answers
    [{"error": True}] and changes neither the queue, the locks nor the
    database -- exactly when the user's most recent [GenerationLog] row
    (the one with the highest id among the user's rows, of any kind) is of
    kind [K] and the balance of [K]'s category is [<= 0]. In particular a
    request of a kind other than that of the most recent row is never
    rejected by the guard, whatever the balance. *)
Theorem overdraft_guard_exact (c : ApiCall) (s : St) (u : User) :
  faults s = [] -> users (sess s) !! api_user c = Some u ->
  NoDup (map log_id (logs (sess s))) ->
  (fst (run_api c s) = Ok RGuardBlocked <->
   exists l, l ∈ logs (sess s) /\ log_user_id l = user_id u /\
     (forall l', l' ∈ logs (sess s) -> log_user_id l' = user_id u -> log_id l' <= log_id l) /\
     generation_type l = api_kind c /\ credit_negative (api_kind c) u = true) /\
  (fst (run_api c s) = Ok RGuardBlocked ->
   queue (snd (run_api c s)) = queue s /\ locks (snd (run_api c s)) = locks s /\
   db (snd (run_api c s)) = db s) /\
  (forall l, l ∈ logs (sess s) -> log_user_id l = user_id u ->
     (forall l', l' ∈ logs (sess s) -> log_user_id l' = user_id u -> log_id l' <= log_id l) ->
     generation_type l <> api_kind c -> fst (run_api c s) <> Ok RGuardBlocked).
Proof.
  intros Hf Hu Hn.
  destruct (run_api_guarded c) as [B [E HB]]. rewrite E.
  destruct (guarded_spec (api_user c) (api_kind c) B s u Hf Hu HB) as [H1 H2].
  assert (Hiff : fst (guarded (api_user c) (api_kind c) B s) = Ok RGuardBlocked <->
     exists l, l ∈ logs (sess s) /\ log_user_id l = user_id u /\
       (forall l', l' ∈ logs (sess s) -> log_user_id l' = user_id u -> log_id l' <= log_id l) /\
       generation_type l = api_kind c /\ credit_negative (api_kind c) u = true).
  { rewrite H1, last_generation_and_negative_iff. split.
    - intros (l & Hl & Ht & Hc). apply last_log_of_max in Hl as (Hl1 & Hl2 & Hl3); [| exact Hn].
      exists l; auto.
    - intros (l & Hl1 & Hl2 & Hl3 & Ht & Hc). exists l. split; [| auto].
      apply last_log_of_max; auto. }
  split; [exact Hiff |]. split; [exact H2 |].
  intros l Hl1 Hl2 Hl3 Ht Hb. apply Hiff in Hb as (l0 & H01 & H02 & H03 & H0t & _).
  assert (l0 = l) as ->.
  { apply (NoDup_map_eq log_id (logs (sess s))); auto.
    specialize (H03 l Hl1 Hl2). specialize (Hl3 l0 H01 H02). lia. }
  contradiction.
Qed.

Lemma overdraft_guard_exact_witness :
  faults overdrawn_state = [] /\
  users (sess overdrawn_state) !! 1 = Some overdrawn_user /\
  NoDup (map log_id (logs (sess overdrawn_state))) /\
  fst (run_api (CallChapter 1 1 1 "p" 1000) overdrawn_state) = Ok RGuardBlocked /\
  ((fst (run_api (CallChapter 1 1 1 "p" 1000) overdrawn_state) = Ok RGuardBlocked <->
    exists l, l ∈ logs (sess overdrawn_state) /\ log_user_id l = user_id overdrawn_user /\
      (forall l', l' ∈ logs (sess overdrawn_state) -> log_user_id l' = user_id overdrawn_user ->
                  log_id l' <= log_id l) /\
      generation_type l = GChapter /\ credit_negative GChapter overdrawn_user = true) /\
   (fst (run_api (CallChapter 1 1 1 "p" 1000) overdrawn_state) = Ok RGuardBlocked ->
    queue (snd (run_api (CallChapter 1 1 1 "p" 1000) overdrawn_state)) = queue overdrawn_state /\
    locks (snd (run_api (CallChapter 1 1 1 "p" 1000) overdrawn_state)) = locks overdrawn_state /\
    db (snd (run_api (CallChapter 1 1 1 "p" 1000) overdrawn_state)) = db overdrawn_state) /\
   (forall l, l ∈ logs (sess overdrawn_state) -> log_user_id l = user_id overdrawn_user ->
      (forall l', l' ∈ logs (sess overdrawn_state) -> log_user_id l' = user_id overdrawn_user ->
                  log_id l' <= log_id l) ->
      generation_type l <> GChapter ->
      fst (run_api (CallChapter 1 1 1 "p" 1000) overdrawn_state) <> Ok RGuardBlocked)).
Proof.
  assert (H1 : faults overdrawn_state = []) by reflexivity.
  assert (H2 : users (sess overdrawn_state) !! 1 = Some overdrawn_user) by (vm_compute; reflexivity).
  assert (H3 : NoDup (map log_id (logs (sess overdrawn_state))))
    by (cbn; apply NoDup_singleton).
  split; [exact H1 | split; [exact H2 | split; [exact H3 | split; [vm_compute; reflexivity |]]]].
  exact (overdraft_guard_exact (CallChapter 1 1 1 "p" 1000) overdrawn_state overdrawn_user H1 H2 H3).
Defined.

(** C8 as stated fails: the overdrawn user is blocked from chapter
    requests, dispatches a cover image (image credits are positive), and
    the next chapter request passes the guard while the text balance is
    still 0 -- it is only stopped later by the affordability check. *)
Lemma overdraft_guard_lifted_by_image_job :
  credit_negative GChapter overdrawn_user = true /\
  last_generation_and_negative (logs (sess overdrawn_state)) overdrawn_user GChapter = true /\
  fst (api_generate_cover_image 1 1 "a cover" overdrawn_state) = Ok (RQueued None) /\
  users (sess (snd (api_generate_cover_image 1 1 "a cover" overdrawn_state))) !! 1
    = Some overdrawn_user /\
  last_generation_and_negative
    (logs (sess (snd (api_generate_cover_image 1 1 "a cover" overdrawn_state))))
    overdrawn_user GChapter = false /\
  fst (api_generate_chapter 1 1 1 "p" 1000
         (snd (api_generate_cover_image 1 1 "a cover" overdrawn_state)))
    = Ok (RNotEnoughCredits (PyInt 66) (Some 0)).
Proof. repeat split; vm_compute; reflexivity. Qed.

(* ------------------------------------------------------------------ *)
(** ** Degenerate metadata *)

(** C6 (what the code does): when the metadata reply decodes to an object
    with empty [characters] and [locations] lists and no external call
    fails, the worker returns [None] after notifying
    "Metadata Generation Failed" and releasing the lock, and leaves the
    database exactly as it was: nothing is persisted, nothing is debited,
    and the job's [GenerationLog] row is not marked failed -- it stays
    [pending]. *)
Theorem empty_meta_leaves_job_pending (json_loads : string -> option Json)
    (count_tokens : string -> string -> Z) (tid sid : Z) (prompt : string) (uid pit : Z)
    (reply : string) (s : St) :
  json_loads reply = Some empty_meta_json ->
  faults s = [] ->
  fst (generate_meta_task json_loads count_tokens tid sid prompt uid pit reply s) = Ok RetNone /\
  db (snd (generate_meta_task json_loads count_tokens tid sid prompt uid pit reply s)) = db s /\
  sess (snd (generate_meta_task json_loads count_tokens tid sid prompt uid pit reply s)) = db s /\
  (uid ∉ locks (snd (generate_meta_task json_loads count_tokens tid sid prompt uid pit reply s))) /\
  events (snd (generate_meta_task json_loads count_tokens tid sid prompt uid pit reply s))
    = events s ++ [(uid, "Metadata Generation Failed")].
Proof.
  intros Hj. destruct s as [d se lk q n ev c fs]; simpl; intros ->.
  unfold generate_meta_task. rewrite Hj.
  unfold find_log, bind, gets, io, try_finally, try_except, lift, notify, modify,
    clear_user_generation_lock, worker_finally, session_remove, ret.
  simpl. repeat split. set_solver.
Qed.

Lemma empty_meta_leaves_job_pending_witness :
  empty_meta_loads "{}" = Some empty_meta_json /\ faults meta_pending_state = [] /\
  fst (generate_meta_task empty_meta_loads word_count 7 1 "p" 1 1000 "{}" meta_pending_state)
    = Ok RetNone /\
  db (snd (generate_meta_task empty_meta_loads word_count 7 1 "p" 1 1000 "{}" meta_pending_state))
    = db meta_pending_state /\
  sess (snd (generate_meta_task empty_meta_loads word_count 7 1 "p" 1 1000 "{}" meta_pending_state))
    = db meta_pending_state /\
  (1 ∉ locks (snd (generate_meta_task empty_meta_loads word_count 7 1 "p" 1 1000 "{}"
                     meta_pending_state))) /\
  events (snd (generate_meta_task empty_meta_loads word_count 7 1 "p" 1 1000 "{}" meta_pending_state))
    = events meta_pending_state ++ [(1, "Metadata Generation Failed")].
Proof.
  assert (H1 : empty_meta_loads "{}" = Some empty_meta_json) by reflexivity.
  assert (H2 : faults meta_pending_state = []) by reflexivity.
  split; [exact H1 | split; [exact H2 |]].
  exact (empty_meta_leaves_job_pending empty_meta_loads word_count 7 1 "p" 1 1000 "{}"
           meta_pending_state H1 H2).
Defined.

(* ------------------------------------------------------------------ *)
(** ** The job state machine *)

Lemma Forall2_rtc_map (L0 ls : list GenerationLog) (g : GenerationLog -> GenerationLog) :
  (forall l, g l = l \/ log_step l (g l)) ->
  Forall2 (rtc log_step) L0 ls -> Forall2 (rtc log_step) L0 (map g ls).
Proof.
  intros Hg. induction 1 as [|x y L0 ls Hxy _ IH]; simpl; constructor; auto.
  destruct (Hg y) as [E|S]; [by rewrite E | eapply rtc_r; eauto].
Qed.

Lemma hoare_if_log_evolve (entry : option Z) (f : GenerationLog -> GenerationLog) :
  (forall l, log_step l (f l)) -> hoare logs_evolve (fun _ => True) (if_log entry f).
Proof.
  intros Hf. destruct entry as [i|]; simpl; [| by apply hoare_ret].
  unfold sess_update, commit.
  apply hoare_bind; [apply hoare_modify; [|exact I] | intros _].
  - intros s L0 [Hd Hs]; split; simpl; [exact Hd |].
    apply Forall2_rtc_map; [| exact Hs].
    intros l; case_bool_decide; auto.
  - apply hoare_bind; [apply hoare_io; [|exact I] | intros _; apply hoare_modify; [|exact I]].
    + intros s L0 H; exact H.
    + intros s L0 [Hd Hs]; split; simpl; assumption.
Qed.

Ltac logs_side :=
  first [ apply hoare_if_log_evolve; intros; constructor
        | intros; unfold logs_evolve, logs_from; simpl; tauto ].

Lemma run_task_logs_evolve (json_loads : string -> option Json)
    (count_tokens : string -> string -> Z) (t : Task) (reply : string) :
  hoare logs_evolve (fun _ => True) (run_task json_loads count_tokens t reply).
Proof.
  destruct t; simpl;
    [ unfold generate_image_task | unfold generate_meta_task | unfold generate_story_arcs_task
    | unfold generate_summaries_task | unfold generate_chapter_guide_task
    | unfold generate_chapter_task ];
    hoare_auto logs_side.
Qed.

#[global] Instance image_logs_evolve_preorder : PreOrder image_logs_evolve.
Proof. split; [intros s L0 H; exact H | intros ??? H1 H2 L0 H; auto]. Qed.

Lemma Forall2_rtc_image_map (L0 ls : list GenerationLog) (g : GenerationLog -> GenerationLog) :
  (forall l, g l = l \/ image_log_step l (g l)) ->
  Forall2 (rtc image_log_step) L0 ls -> Forall2 (rtc image_log_step) L0 (map g ls).
Proof.
  intros Hg. induction 1 as [|x y L0 ls Hxy _ IH]; simpl; constructor; auto.
  destruct (Hg y) as [E|S]; [by rewrite E | eapply rtc_r; eauto].
Qed.

Lemma hoare_if_log_image (entry : option Z) (f : GenerationLog -> GenerationLog) :
  (forall l, image_log_step l (f l)) -> hoare image_logs_evolve (fun _ => True) (if_log entry f).
Proof.
  intros Hf. destruct entry as [i|]; simpl; [| by apply hoare_ret].
  unfold sess_update, commit.
  apply hoare_bind; [apply hoare_modify; [|exact I] | intros _].
  - intros s L0 [Hd Hs]; split; simpl; [exact Hd |].
    apply Forall2_rtc_image_map; [| exact Hs].
    intros l; case_bool_decide; auto.
  - apply hoare_bind; [apply hoare_io; [|exact I] | intros _; apply hoare_modify; [|exact I]].
    + intros s L0 H; exact H.
    + intros s L0 [Hd Hs]; split; simpl; assumption.
Qed.

Ltac image_logs_side :=
  first [ apply hoare_if_log_image; intros; constructor
        | intros; unfold image_logs_evolve, image_logs_from; simpl; tauto ].

Lemma image_task_logs_evolve (tid sid : Z) (image_key prompt : string) (uid : Z)
    (credit_cost : PyNum) (chapter : option Z) :
  hoare image_logs_evolve (fun _ => True)
    (generate_image_task tid sid image_key prompt uid credit_cost chapter).
Proof. unfold generate_image_task. hoare_auto image_logs_side. Qed.

Lemma rtc_image_log_step_cost (l l' : GenerationLog) :
  rtc image_log_step l l' -> real_cost l' = real_cost l.
Proof. induction 1 as [l|x y z Hxy _ IH]; [reflexivity |]. rewrite IH. destruct Hxy; reflexivity. Qed.

Lemma Forall2_refl_rtc {A} (R : relation A) (L : list A) : Forall2 (rtc R) L L.
Proof. induction L; constructor; [reflexivity | assumption]. Qed.

(** What a sequence of worker updates does to one row. *)
Lemma rtc_log_step_props (l l' : GenerationLog) :
  rtc log_step l l' ->
  (status l <> Pending -> status l' <> Pending) /\
  (real_cost l' = real_cost l \/ ((exists c, real_cost l' = Some (PyInt c)) /\ status l' <> Pending)).
Proof.
  induction 1 as [l|x y z Hxy _ [IH1 IH2]]; [auto |].
  assert (Hy : status y <> Pending) by (destruct Hxy; simpl; discriminate).
  assert (Hz : status z <> Pending) by auto.
  split; [intros _; exact Hz |].
  destruct Hxy as [c itok otok model l | l | e l]; simpl in *.
  - right; split; [| exact Hz]. destruct IH2 as [E | [E _]]; [exists c; exact E | exact E].
  - destruct IH2 as [E | E]; [left; exact E | right; exact E].
  - destruct IH2 as [E | E]; [left; exact E | right; exact E].
Qed.

(** C7 (what the workers guarantee): started on a fresh session, a worker
    run changes each [GenerationLog] row so that a terminal row stays
    terminal (no return to [pending]), and the only change it makes to
    [real_cost] is to write an integer actual cost, after which the row is
    terminal; an image worker run leaves every row's [real_cost] as it
    was. The converse does not hold (see the counterexample): a terminal
    row may have a null [real_cost], and a pending one may have it set. *)
Theorem worker_log_transitions (json_loads : string -> option Json)
    (count_tokens : string -> string -> Z) (t : Task) (reply : string) (s : St) :
  logs (sess s) = logs (db s) ->
  Forall2 (fun l l' =>
             (status l <> Pending -> status l' <> Pending) /\
             (real_cost l' = real_cost l \/
              ((exists c, real_cost l' = Some (PyInt c)) /\ status l' <> Pending)))
          (logs (db s)) (logs (db (snd (run_task json_loads count_tokens t reply s)))) /\
  match t with
  | TImage _ _ _ _ _ _ _ =>
    Forall2 (fun l l' => real_cost l' = real_cost l)
            (logs (db s)) (logs (db (snd (run_task json_loads count_tokens t reply s))))
  | _ => True
  end.
Proof.
  intros Hs. split.
  - destruct (run_task_logs_evolve json_loads count_tokens t reply s) as [H _].
    assert (H0 : logs_from (logs (db s)) s).
    { split; [apply Forall2_refl_rtc | rewrite Hs; apply Forall2_refl_rtc]. }
    destruct (H _ H0) as [Hd _].
    eapply Forall2_impl; [exact Hd |]. intros l l' Hll'. apply rtc_log_step_props; exact Hll'.
  - destruct t as [tid sid k p uid c ch| | | | |]; try exact I. simpl.
    destruct (image_task_logs_evolve tid sid k p uid c ch s) as [H _].
    assert (H0 : image_logs_from (logs (db s)) s).
    { split; [apply Forall2_refl_rtc | rewrite Hs; apply Forall2_refl_rtc]. }
    destruct (H _ H0) as [Hd _].
    eapply Forall2_impl; [exact Hd |]. intros l l' Hll'. apply rtc_image_log_step_cost; exact Hll'.
Qed.

Lemma worker_log_transitions_witness :
  (logs (sess arcs_llm_fault_state) = logs (db arcs_llm_fault_state) /\
   Forall2 (fun l l' =>
              (status l <> Pending -> status l' <> Pending) /\
              (real_cost l' = real_cost l \/
               ((exists c, real_cost l' = Some (PyInt c)) /\ status l' <> Pending)))
           (logs (db arcs_llm_fault_state))
           (logs (db (snd (run_task no_json word_count (TStoryArcs 7 1 "p" 1 1000) "x"
                             arcs_llm_fault_state)))) /\
   True) /\
  (logs (sess chapter_image_dispatched) = logs (db chapter_image_dispatched) /\
   Forall2 (fun l l' =>
              (status l <> Pending -> status l' <> Pending) /\
              (real_cost l' = real_cost l \/
               ((exists c, real_cost l' = Some (PyInt c)) /\ status l' <> Pending)))
           (logs (db chapter_image_dispatched))
           (logs (db (snd (run_task no_json word_count chapter_image_task "x"
                             chapter_image_dispatched)))) /\
   Forall2 (fun l l' => real_cost l' = real_cost l)
           (logs (db chapter_image_dispatched))
           (logs (db (snd (run_task no_json word_count chapter_image_task "x"
                             chapter_image_dispatched))))).
Proof.
  assert (H : logs (sess arcs_llm_fault_state) = logs (db arcs_llm_fault_state)) by reflexivity.
  assert (H' : logs (sess chapter_image_dispatched) = logs (db chapter_image_dispatched))
    by (vm_compute; reflexivity).
  split; split.
  - exact H.
  - exact (worker_log_transitions no_json word_count (TStoryArcs 7 1 "p" 1 1000) "x"
             arcs_llm_fault_state H).
  - exact H'.
  - exact (worker_log_transitions no_json word_count chapter_image_task "x"
             chapter_image_dispatched H').
Defined.

(** C7 as stated fails both ways: a story-arcs job whose model call raises
    ends [failed] with a null [real_cost]; a cover-image job is created
    [pending] with [real_cost] already set to its prediction; a
    chapter-image job is created [pending] with a null [real_cost] and
    still has it null once its worker has marked it [succeeded]. *)
Lemma real_cost_not_tied_to_terminal_status :
  match logs (db (snd (generate_story_arcs_task no_json word_count 7 1 "p" 1 1000 "x"
                         arcs_llm_fault_state))) with
  | [l] => status l = Failed /\ real_cost l = None
  | _ => False
  end /\
  match logs (db (snd (api_generate_cover_image 1 1 "a cover" locked_state))) with
  | [l] => status l = Pending /\ real_cost l = Some (PyFloat 4)
  | _ => False
  end /\
  queue chapter_image_dispatched = [chapter_image_task] /\
  match logs (db chapter_image_dispatched) with
  | [_; l] => status l = Pending /\ real_cost l = None
  | _ => False
  end /\
  match logs (db (snd (run_task no_json word_count chapter_image_task "x"
                         chapter_image_dispatched))) with
  | [_; l] => status l = Succeeded /\ real_cost l = None
  | _ => False
  end.
Proof. repeat split; vm_compute; try split; reflexivity. Qed.

(* ------------------------------------------------------------------ *)
(** ** The password policy *)

Module PasswordPolicyFacts.
Import PasswordPolicy.

Lemma star_spec f pos s k :
  star f pos s k = true <->
  exists pre post, s = pre ++ post /\ Forall (fun c => f c = true) pre /\ k (pos + length pre)%nat post = true.
Proof.
  revert pos; induction s as [|c s IH]; intros pos; simpl.
  - split.
    + intros H. exists [], []. rewrite Nat.add_0_r. auto.
    + intros (pre & post & E & _ & Hk). symmetry in E. apply app_eq_nil in E as [-> ->].
      rewrite Nat.add_0_r in Hk. rewrite Hk. reflexivity.
  - rewrite orb_true_iff, andb_true_iff, IH. split.
    + intros [[Hc (pre & post & -> & Hf & Hk)] | Hk].
      * exists (c :: pre), post. simpl. rewrite Nat.add_succ_r. auto.
      * exists [], (c :: s). rewrite Nat.add_0_r. auto.
    + intros (pre & post & E & Hf & Hk). destruct pre as [|c' pre]; simpl in *.
      * right. subst. rewrite Nat.add_0_r in Hk. exact Hk.
      * left. injection E as -> ->. inversion Hf; subst. split; [assumption|].
        exists pre, post. rewrite <- Nat.add_succ_r. auto.
Qed.
Lemma rep_spec n f pos s k :
  rep n f pos s k = true <->
  exists pre post, s = pre ++ post /\ length pre = n /\ Forall (fun c => f c = true) pre /\
                   k (pos + n)%nat post = true.
Proof.
  revert pos s; induction n as [|n IH]; intros pos s; simpl.
  - rewrite Nat.add_0_r. split.
    + intros Hk. exists [], s. auto.
    + intros (pre & post & -> & Hl & _ & Hk). destruct pre; [exact Hk | discriminate].
  - destruct s as [|c s].
    + split; [discriminate |]. intros (pre & post & E & Hl & _ & _).
      destruct pre; [discriminate | discriminate].
    + rewrite andb_true_iff, IH. split.
      * intros [Hc (pre & post & -> & Hl & Hf & Hk)].
        exists (c :: pre), post. simpl. replace (pos + S n)%nat with (S pos + n)%nat by lia. auto.
      * intros (pre & post & E & Hl & Hf & Hk). destruct pre as [|c' pre]; [discriminate |].
        injection E as -> ->. simpl in Hl. inversion Hf; subst. split; [assumption |].
        exists pre, post. replace (S pos + n)%nat with (pos + S n)%nat by lia. auto.
Qed.
Lemma look_spec f pos s :
  matches (RSeq (RStar not_newline) (RClass f)) pos s (fun _ _ => true) = true <->
  exists pre c post, s = pre ++ c :: post /\ one_line pre /\ f c = true.
Proof.
  simpl. rewrite star_spec. split.
  - intros (pre & post & -> & Hf & Hk). destruct post as [|c post]; [discriminate |].
    rewrite andb_true_r in Hk. exists pre, c, post. auto.
  - intros (pre & c & post & -> & Hf & Hc). exists pre, (c :: post).
    rewrite Hc. auto.
Qed.

Lemma matches_seq r1 r2 pos s k :
  matches (RSeq r1 r2) pos s k = matches r1 pos s (fun p s' => matches r2 p s' k).
Proof. reflexivity. Qed.
Lemma matches_at_least n f pos s k :
  matches (RAtLeast n f) pos s k = rep n f pos s (fun p s' => star f p s' k).
Proof. reflexivity. Qed.
Lemma matches_end pos s k :
  matches REnd pos s k = (match s with [] => true | [c] => Z.eqb c 10 | _ => false end) && k pos s.
Proof. reflexivity. Qed.

Lemma tail_spec pos s :
  matches (RSeq (RAtLeast 8 not_newline) REnd) pos s (fun _ _ => true) = true <->
  exists line, (s = line \/ s = line ++ [10]) /\ one_line line /\ (8 <= length line)%nat.
Proof.
  rewrite matches_seq, matches_at_least, rep_spec. split.
  - intros (pre & post & -> & Hl & Hf & Hk). apply star_spec in Hk.
    destruct Hk as (pre2 & post2 & -> & Hf2 & Hk). cbv beta in Hk.
    rewrite matches_end, andb_true_r in Hk.
    exists (pre ++ pre2). split; [| split; [apply Forall_app; auto | rewrite length_app; lia]].
    destruct post2 as [|c [|c' post2]]; [left | right | discriminate].
    + rewrite ?app_nil_r, ?app_assoc; reflexivity.
    + apply Z.eqb_eq in Hk. subst c. rewrite app_assoc. reflexivity.
  - intros (line & Hs & Hf & Hl).
    exists (take 8 line), (drop 8 line ++ (if decide (s = line) then [] else [10])).
    split; [| split; [rewrite length_take; lia | split]].
    + destruct (decide (s = line)); [rewrite app_nil_r, take_drop; exact e |].
      destruct Hs as [Hs | Hs]; [contradiction | rewrite app_assoc, take_drop; exact Hs].
    + apply Forall_take; exact Hf.
    + apply star_spec. exists (drop 8 line), (if decide (s = line) then [] else [10]).
      split; [reflexivity | split; [apply Forall_drop; exact Hf |]].
      cbv beta. rewrite matches_end. destruct (decide (s = line)); reflexivity.
Qed.

Lemma matches_begin pos s k : matches RBegin pos s k = Nat.eqb pos 0 && k pos s.
Proof. reflexivity. Qed.
Lemma matches_look r pos s k :
  matches (RLook r) pos s k = matches r pos s (fun _ _ => true) && k pos s.
Proof. reflexivity. Qed.


Lemma password_pattern_spec ud uw p :
  re_match (password_pattern ud uw) p = true <->
  first_line_has is_lower p /\ first_line_has is_upper p /\ first_line_has (is_digit ud) p /\
  first_line_has (is_special uw) p /\
  exists line, (p = line \/ p = line ++ [10]) /\ one_line line /\ (8 <= length line)%nat.
Proof.
  unfold re_match, password_pattern, lookahead_any.
  repeat (rewrite ?matches_seq, ?matches_begin, ?matches_look; cbv beta).
  rewrite <- !(matches_seq (RStar not_newline)), <- (matches_seq (RAtLeast 8 not_newline)).
  rewrite !andb_true_iff, !look_spec, tail_spec. unfold first_line_has. simpl. intuition.
Qed.

Lemma one_line_iff s : one_line s <-> 10 ∉ s.
Proof.
  unfold one_line, not_newline. rewrite Forall_forall. split.
  - intros H Hin. specialize (H 10 Hin). simpl in H. discriminate.
  - intros H x Hx. apply negb_true_iff, Z.eqb_neq. intros ->. contradiction.
Qed.

Lemma split_prefix pre c post line tail :
  one_line pre -> (forall x t, tail = x :: t -> not_newline x = false) ->
  pre ++ c :: post = line ++ tail -> c ∈ line \/ (pre = line /\ c :: post = tail).
Proof.
  intros Hpre Ht. revert pre Hpre. induction line as [|y line IH]; intros pre Hpre E.
  - destruct pre as [|x pre]; simpl in E; [right; auto |].
    specialize (Ht x (pre ++ c :: post) (eq_sym E)). inversion Hpre; congruence.
  - destruct pre as [|x pre]; simpl in E; injection E as E1 E2.
    + left. subst. apply elem_of_cons; left; reflexivity.
    + inversion Hpre; subst. destruct (IH pre ltac:(assumption) E2) as [H | [-> H]].
      * left. apply elem_of_cons; right; exact H.
      * right. auto.
Qed.

Lemma first_line_has_line f p line :
  one_line line -> (p = line \/ p = line ++ [10]) ->
  first_line_has f p <-> (exists c, c ∈ line /\ f c = true) \/ (p = line ++ [10] /\ f 10 = true).
Proof.
  intros Hl Hp. split.
  - intros (pre & c & post & E & Hpre & Hc).
    destruct Hp as [-> | ->].
    + left. exists c. split; [| exact Hc].
      destruct (split_prefix pre c post line [] Hpre ltac:(discriminate) ltac:(rewrite app_nil_r; exact (eq_sym E)))
        as [H | [_ H]]; [exact H | discriminate].
    + destruct (split_prefix pre c post line [10] Hpre ltac:(intros x t [= <- <-]; reflexivity) (eq_sym E))
        as [H | [_ H]].
      * left. exists c. auto.
      * right. injection H as -> _. auto.
  - intros [(c & Hin & Hc) | [-> Hc]].
    + apply list_elem_of_split in Hin as (a & b & ->).
      unfold one_line in Hl. rewrite Forall_app in Hl. destruct Hl as [Ha _].
      destruct Hp as [-> | ->].
      * exists a, c, b. auto.
      * exists a, c, (b ++ [10]). rewrite <- app_assoc. auto.
    + exists line, 10, []. auto.
Qed.

Lemma password_valid_iff ud uw p :
  re_match (password_pattern ud uw) p = true <->
  exists line,
    (p = line \/ p = line ++ [10]) /\ (10 ∉ line) /\ (8 <= length line)%nat /\
    (exists c, c ∈ line /\ is_lower c = true) /\
    (exists c, c ∈ line /\ is_upper c = true) /\
    (exists c, c ∈ line /\ is_digit ud c = true) /\
    ((exists c, c ∈ line /\ is_special uw c = true) \/ p = line ++ [10]).
Proof.
  rewrite password_pattern_spec. split.
  - intros (Hlo & Hup & Hdi & Hsp & line & Hp & Hl & Hlen).
    exists line. rewrite <- one_line_iff.
    rewrite (first_line_has_line is_lower p line Hl Hp) in Hlo.
    rewrite (first_line_has_line is_upper p line Hl Hp) in Hup.
    rewrite (first_line_has_line (is_digit ud) p line Hl Hp) in Hdi.
    rewrite (first_line_has_line (is_special uw) p line Hl Hp) in Hsp.
    repeat split; try assumption.
    + destruct Hlo as [H | [_ H]]; [exact H | discriminate].
    + destruct Hup as [H | [_ H]]; [exact H | discriminate].
    + destruct Hdi as [H | [_ H]]; [exact H | discriminate].
    + destruct Hsp as [H | [H _]]; [left; exact H | right; exact H].
  - intros (line & Hp & Hl & Hlen & Hlo & Hup & Hdi & Hsp).
    rewrite <- one_line_iff in Hl.
    rewrite (first_line_has_line is_lower p line Hl Hp), (first_line_has_line is_upper p line Hl Hp),
      (first_line_has_line (is_digit ud) p line Hl Hp), (first_line_has_line (is_special uw) p line Hl Hp).
    split; [left; exact Hlo | split; [left; exact Hup | split; [left; exact Hdi | split]]].
    + destruct Hsp as [H | H]; [left; exact H | right; split; [exact H | reflexivity]].
    + exists line. auto.
Qed.


End PasswordPolicyFacts.

(* ------------------------------------------------------------------ *)
(** ** Credit frames *)

#[global] Instance users_evolve_preorder may k : PreOrder (users_evolve may k).
Proof. split; [intros s U H; exact H | intros ??? H1 H2 U H; auto]. Qed.

Lemma set_credits_twice k x y u : set_credits k x (set_credits k y u) = set_credits k x u.
Proof. destruct k; reflexivity. Qed.

Lemma hoare_spend_credits_users (may : Z -> Prop) (k : CreditKind) uid cost :
  may uid -> hoare (users_evolve may k) (fun _ => True) (spend_credits uid k cost).
Proof.
  intros Hm s. unfold spend_credits, get_user, commit, sess_update, bind, io, gets, lift, modify, raise.
  destruct (decide (clock s ∈ faults s)); simpl; [split; [intros U H; exact H | done] |].
  destruct (users (sess s) !! uid) as [u|] eqn:Eu; [| split; [intros U H; exact H | done]].
  destruct (sub_cost (credits_of k u) cost) as [v|e]; [| split; [intros U H; exact H | done]].
  assert (Hstep : forall U, users_from may k U s -> forall w,
    credit_moves may k w (U !! w) (<[uid:=set_credits k v u]> (users (sess s)) !! w)).
  { intros U H w. destruct (decide (w = uid)) as [->|Hne].
    - rewrite lookup_insert_eq. right; split; [exact Hm |].
      destruct (H uid) as [_ [E | [_ [u0 [y [E1 E2]]]]]].
      + rewrite Eu in E. exists u, v; split; [symmetry; exact E | reflexivity].
      + rewrite Eu in E2. injection E2 as ->. exists u0, v; split; [exact E1 | by rewrite set_credits_twice].
    - rewrite lookup_insert_ne by congruence. apply H. }
  simpl; destruct (decide (S (clock s) ∈ faults s)); simpl; split; try done;
    intros U H w; split; first [apply Hstep; exact H | apply H].
Qed.

Lemma hoare_set_user_generation_lock {R : St -> St -> Prop} `{!PreOrder R} (Q : bool -> Prop) uid :
  (forall l s, R s (set_locks l s)) -> (forall b, Q b) -> hoare R Q (set_user_generation_lock uid).
Proof.
  intros Hl HQ s; unfold set_user_generation_lock; destruct (decide _); simpl;
    (split; [first [reflexivity | apply Hl] | intros; apply HQ]).
Qed.

Ltac users_unfold :=
  unfold get_user, get_story, find_log, commit, rollback, session_remove, sess_update,
    notify, socket_emit, clear_user_generation_lock, estimate, predict,
    debit_and_record, text_failure, worker_finally, json_loads_or_raise, upsert_summary,
    group_guide, get_current_user, is_last_generation_and_negative_creds, enqueue_and_log,
    predict_image, add_log, if_log.

Ltac users_side :=
  first [ apply hoare_spend_credits_users; reflexivity
        | apply hoare_set_user_generation_lock; [users_side | intros; exact I]
        | intros; let U := fresh "U" in let H := fresh "H" in let v := fresh "v" in
          intros U H v; destruct (H v); simpl in *; tauto ].

Ltac users_auto :=
  users_unfold;
  repeat first [ hoare_step | progress users_unfold | solve [users_side] | exact I
               | solve [intros; exact I] | (cbv beta; congruence) ].

Lemma run_task_users_evolve json_loads count_tokens t reply :
  hoare (users_evolve (fun v => v = task_user t) (task_credit_kind t)) (fun _ => True)
        (run_task json_loads count_tokens t reply).
Proof.
  destruct t; simpl;
    [ unfold generate_image_task | unfold generate_meta_task | unfold generate_story_arcs_task
    | unfold generate_summaries_task | unfold generate_chapter_guide_task
    | unfold generate_chapter_task ];
    users_auto.
Qed.

Lemma run_api_users_evolve c k :
  hoare (users_evolve (fun _ => False) k) (fun _ => True) (run_api c).
Proof.
  destruct c; simpl;
    [ unfold api_generate_meta | unfold api_generate_arcs | unfold api_generate_summaries
    | unfold api_generate_chapter_guide | unfold api_generate_chapter
    | unfold api_generate_all_chapters | unfold api_generate_cover_image
    | unfold api_generate_chapter_image ];
    users_auto.
Qed.

(** The committed rows after a run that starts with the session in step
    with the database. *)
Lemma users_evolve_db may k s s' :
  users (sess s) = users (db s) -> users_evolve may k s s' ->
  forall v, credit_moves may k v (users (db s) !! v) (users (db s') !! v) /\
            credit_moves may k v (users (db s) !! v) (users (sess s') !! v).
Proof.
  intros Hs H. apply H. intros v. rewrite Hs. split; left; reflexivity.
Qed.

(* ------------------------------------------------------------------ *)
(** ** Straight-line runs *)

Lemma chapter_run (count_tokens : string -> string -> Z) tid sid prompt n uid pit reply
    (d : DB) lk q nt ev ck u c :
  users d !! uid = Some u ->
  calculate_actual_chapter_cost (pricing d) pit (count_tokens reply "o1-mini") = Ok c ->
  let s' := snd (generate_chapter_task count_tokens tid sid prompt n uid pit reply
                   (mkSt d d lk q nt ev ck [])) in
  let r := fst (generate_chapter_task count_tokens tid sid prompt n uid pit reply
                   (mkSt d d lk q nt ev ck [])) in
  let entry := option_map log_id (List.find (fun l => bool_decide (task_id l = tid
                  /\ log_user_id l = uid /\ generation_type l = GChapter)) (logs d)) in
  let total := total_credit_cost c in
  let succ := fun l => mark_text_succeeded total (input_tokens c) (output_tokens c) "o1-mini" l in
  users (db s') = <[uid := set_credits CText (text_credits u - total) u]> (users d) /\
  sess s' = db s' /\ (uid ∉ locks s') /\
  match List.find (fun ch => bool_decide (chapter_story_id ch = sid /\ chapter_number ch = n))
          (chapters d) with
  | Some ch =>
    r = Ok RetSuccess /\
    chapters (db s') = map (set_content (chapter_id ch) reply) (chapters d) /\
    events s' = ev ++ [(uid, "Chapter Generation Successful"); (uid, "chapter_generated")] /\
    logs (db s') = match entry with
                   | Some i => map (fun l => if bool_decide (log_id l = i) then succ l else l) (logs d)
                   | None => logs d
                   end
  | None =>
    r = Ok (RetError "'NoneType' object has no attribute 'title'") /\
    chapters (db s') = chapters d /\
    events s' = ev ++ [(uid, "Chapter Generation Successful"); (uid, "Chapter Generation Failed");
                       (uid, "generation_error")] /\
    logs (db s') = match entry with
                   | Some i => map (fun l => if bool_decide (log_id l = i)
                                             then mark_failed "'NoneType' object has no attribute 'title'" (succ l)
                                             else l) (logs d)
                   | None => logs d
                   end
  end.
Proof.
  intros Hu Hc.
  unfold generate_chapter_task, find_log, try_finally, try_except, bind, io, gets.
  cbn; drop_no_faults.
  destruct (List.find _ (chapters d)) as [ch|] eqn:Ech;
  repeat progress unfold estimate, debit_and_record, spend_credits, get_user, if_log, sess_update, notify,
    socket_emit, text_failure, worker_finally, clear_user_generation_lock, session_remove,
    commit, bind, io, gets, lift, modify, ret, raise; cbn; drop_no_faults; rewrite Hc; cbn; drop_no_faults; rewrite Hu; cbn; drop_no_faults;
  destruct (option_map _ _) as [i|]; cbn; drop_no_faults.
  all: repeat split; try reflexivity; try set_solver; try (by rewrite <- app_assoc).
  all: try (by rewrite <- !app_assoc).
  rewrite map_map; apply map_ext; intros l.
  assert (Hid : forall a b c0 m l0, log_id (mark_text_succeeded a b c0 m l0) = log_id l0)
    by reflexivity.
  destruct (bool_decide (log_id l = i)) eqn:E; [rewrite Hid, E | rewrite E]; reflexivity.
Qed.

Lemma arcs_run json_loads (count_tokens : string -> string -> Z) tid sid prompt uid pit reply
    (d : DB) lk q nt ev ck i st j e :
  option_map log_id (List.find (fun l => bool_decide (task_id l = tid
                  /\ log_user_id l = uid /\ generation_type l = GStoryArcs)) (logs d)) = Some i ->
  List.find (fun st => bool_decide (story_id st = sid)) (stories d) = Some st ->
  json_loads reply = Some j -> PyJson.iter j = Err e ->
  let r := generate_story_arcs_task json_loads count_tokens tid sid prompt uid pit reply
             (mkSt d d lk q nt ev ck []) in
  fst r = Ok (RetError e) /\
  story_arcs (db (snd r)) = filter (fun a => bool_decide (arc_story_id a <> story_id st)) (story_arcs d) /\
  logs (db (snd r)) = map (fun l => if bool_decide (log_id l = i) then mark_failed e l else l) (logs d) /\
  users (db (snd r)) = users d /\
  events (snd r) = ev ++ [(uid, "Story Arcs Generation Failed"); (uid, "generation_error")].
Proof.
  intros Hi Hst Hj He.
  unfold generate_story_arcs_task, find_log, try_finally, try_except, bind, io, gets.
  cbn; drop_no_faults. rewrite Hi.
  repeat progress unfold json_loads_or_raise, get_story, text_failure, if_log, sess_update, notify,
    socket_emit, worker_finally, clear_user_generation_lock, session_remove,
    commit, bind, io, gets, lift, modify, ret, raise; cbn; drop_no_faults.
  rewrite Hj; cbn; drop_no_faults. rewrite Hst; cbn; drop_no_faults. rewrite He; cbn; drop_no_faults.
  repeat split; try reflexivity.
  by rewrite <- app_assoc.
Qed.

Ltac api_unfold :=
  repeat progress unfold get_user, get_story, commit, sess_update, notify, clear_user_generation_lock,
    predict, get_current_user, is_last_generation_and_negative_creds, enqueue_and_log, add_log,
    set_user_generation_lock, enqueue, try_except, bind, io, gets, lift, modify, ret, raise,
    tick, set_locks, push_event, set_sess, set_db, push_task.

Ltac run_cases :=
  repeat (cbn; match goal with
          | |- context [decide ?P] => destruct (decide P)
          | |- context [match ?x with Some _ => _ | None => _ end] => destruct x
          | |- context [match ?x with Ok _ => _ | Err _ => _ end] => destruct x
          | |- context [if ?b then _ else _] => destruct b eqn:?
          end).

(** The guards every dispatcher passes before its own checks, on a run
    with no failing external call. *)
Ltac dispatch_guards uid lk ss Hu Hg Hst :=
  repeat (cbn; match goal with
          | |- context [decide (?x ∈ @nil nat)] =>
            let Hx := fresh in
            destruct (decide (x ∈ @nil nat)) as [Hx|_]; [exfalso; by apply not_elem_of_nil in Hx |]
          | H : uid ∉ lk |- context [decide (uid ∈ lk)] => destruct (decide (uid ∈ lk)); [contradiction |]
          | |- context [users ss !! uid] => rewrite Hu
          | |- context [last_generation_and_negative (logs ss) _ GChapter] => rewrite Hg
          | |- context [find (fun st => bool_decide (story_id st = _)) (stories ss)] => rewrite Hst
          end).

(* ================================================================== *)
(** * Further properties of the code *)

(* ------------------------------------------------------------------ *)
(** ** [is_valid_password] *)

(** X1: [is_valid_password] raises on a missing password ([None]), and
    accepts a string exactly when it is one line of at least 8 code points
    (optionally followed by one final ["\n"]) that has a lowercase ASCII
    letter, an uppercase ASCII letter and a digit, and that has a special
    character or ends in that ["\n"]. *)
Theorem is_valid_password_spec ud uw p :
  PasswordPolicy.is_valid_password ud uw None =
    Err "expected string or bytes-like object, got 'NoneType'" /\
  (PasswordPolicy.is_valid_password ud uw (Some p) = Ok true <->
   exists line,
     (p = line \/ p = line ++ [10]) /\ (10 ∉ line) /\ (8 <= length line)%nat /\
     (exists c, c ∈ line /\ PasswordPolicy.is_lower c = true) /\
     (exists c, c ∈ line /\ PasswordPolicy.is_upper c = true) /\
     (exists c, c ∈ line /\ PasswordPolicy.is_digit ud c = true) /\
     ((exists c, c ∈ line /\ PasswordPolicy.is_special uw c = true) \/ p = line ++ [10])).
Proof.
  split; [reflexivity |]. cbn [PasswordPolicy.is_valid_password].
  rewrite <- PasswordPolicyFacts.password_valid_iff. split; [congruence | intros ->; reflexivity].
Qed.

(** X2: a final ["\n"] stands in for the special character: a line of at
    least 8 code points with a lowercase letter, an uppercase letter and a
    digit but no special character is rejected, and the same line followed
    by ["\n"] is accepted. *)
Theorem password_final_newline_counts_as_special ud uw line :
  10 ∉ line -> (8 <= length line)%nat ->
  (exists c, c ∈ line /\ PasswordPolicy.is_lower c = true) ->
  (exists c, c ∈ line /\ PasswordPolicy.is_upper c = true) ->
  (exists c, c ∈ line /\ PasswordPolicy.is_digit ud c = true) ->
  (forall c, c ∈ line -> PasswordPolicy.is_special uw c = false) ->
  PasswordPolicy.is_valid_password ud uw (Some line) = Ok false /\
  PasswordPolicy.is_valid_password ud uw (Some (line ++ [10])) = Ok true.
Proof.
  intros Hn Hl Hlo Hup Hdi Hsp. cbn [PasswordPolicy.is_valid_password]. split.
  - f_equal. apply not_true_is_false. rewrite PasswordPolicyFacts.password_valid_iff.
    intros (line' & Hp & Hn' & _ & _ & _ & _ & Hs).
    destruct Hp as [<- | ->].
    + destruct Hs as [(c & Hc & Hc') | E].
      * rewrite (Hsp c Hc) in Hc'. discriminate.
      * apply (f_equal (@length Z)) in E. rewrite length_app in E. simpl in E. lia.
    + apply Hn, elem_of_app. right. apply list_elem_of_singleton. reflexivity.
  - f_equal. apply PasswordPolicyFacts.password_valid_iff.
    exists line. repeat split; auto.
Qed.

(** X3: a password with a ["\n"] anywhere but at the very end is
    rejected, whatever the rest of it. *)
Theorem password_inner_newline_rejected ud uw a b :
  b <> [] -> PasswordPolicy.is_valid_password ud uw (Some (a ++ 10 :: b)) = Ok false.
Proof.
  intros Hb. cbn [PasswordPolicy.is_valid_password]. f_equal.
  apply not_true_is_false. rewrite PasswordPolicyFacts.password_valid_iff.
  intros (line & Hp & Hn & _).
  destruct Hp as [E | E].
  - apply Hn. rewrite <- E. apply elem_of_app. right. apply elem_of_cons. left; reflexivity.
  - destruct b as [|x b] using rev_ind; [contradiction |].
    rewrite app_comm_cons, app_assoc in E. apply app_inj_tail in E as [E _].
    apply Hn. rewrite <- E. apply elem_of_app. right. apply elem_of_cons. left; reflexivity.
Qed.

Lemma password_final_newline_counts_as_special_witness :
  PasswordPolicy.is_valid_password (fun _ => false) (fun _ => false) (Some (ascii_codes "Abcdefg1")) = Ok false /\
  PasswordPolicy.is_valid_password (fun _ => false) (fun _ => false) (Some (ascii_codes "Abcdefg1" ++ [10])) = Ok true.
Proof.
  apply (password_final_newline_counts_as_special (fun _ => false) (fun _ => false) (ascii_codes "Abcdefg1")).
  - vm_compute. intros H. repeat (apply elem_of_cons in H as [H|H]; [discriminate |]).
    apply elem_of_nil in H. exact H.
  - vm_compute. lia.
  - exists 98. split; [vm_compute; repeat first [apply elem_of_cons; left; reflexivity | apply elem_of_cons; right] | reflexivity].
  - exists 65. split; [vm_compute; apply elem_of_cons; left; reflexivity | reflexivity].
  - exists 49. split; [vm_compute; repeat first [apply elem_of_cons; left; reflexivity | apply elem_of_cons; right] | reflexivity].
  - intros c Hc. vm_compute in Hc.
    repeat (apply elem_of_cons in Hc as [->|Hc]; [reflexivity |]). apply elem_of_nil in Hc. contradiction.
Defined.

Lemma password_inner_newline_rejected_witness :
  ascii_codes "Ab!" <> [] /\
  PasswordPolicy.is_valid_password (fun _ => false) (fun _ => false)
    (Some (ascii_codes "Abcdefg1" ++ 10 :: ascii_codes "Ab!")) = Ok false.
Proof.
  split; [discriminate |].
  apply (password_inner_newline_rejected (fun _ => false) (fun _ => false)). discriminate.
Defined.

(* ------------------------------------------------------------------ *)
(** ** [get_current_user] and [is_story_author_or_admin] *)

(** X4: [get_current_user] swallows a failing user query: while the user
    query raises it returns [None] for every cookie, so the story guard
    redirects every request to the login page, whatever its token and
    story. *)
Theorem user_query_failure_logs_out decode_token pk sqr t cookie kw body :
  Auth.get_current_user decode_token pk true t cookie = None /\
  Auth.is_story_author_or_admin decode_token pk true sqr t cookie kw body = Auth.RedirectLogin.
Proof.
  assert (H : Auth.get_current_user decode_token pk true t cookie = None).
  { unfold Auth.get_current_user.
    destruct cookie as [tok|]; [| reflexivity].
    destruct (String.eqb tok ""); [reflexivity |].
    destruct (decode_token tok) as [dt|]; [| reflexivity].
    destruct (PyJson.get dt "sub") as [[sub|]|]; try reflexivity.
    destruct (Auth.truthy sub); reflexivity. }
  split; [exact H |]. unfold Auth.is_story_author_or_admin. rewrite H. reflexivity.
Qed.

(** X5: the story guard runs the wrapped view only for a logged-in user,
    a truthy story id (from the URL, or else from the JSON body) that
    names a stored story, and a user who owns that story or whose role is
    "admin". *)
Theorem story_guard_runs_view_only_for_owner_or_admin decode_token pk uqr sqr t cookie kw body :
  Auth.is_story_author_or_admin decode_token pk uqr sqr t cookie kw body = Auth.RunView ->
  exists user sid k owner,
    Auth.get_current_user decode_token pk uqr t cookie = Some user /\
    Auth.requested_story_id kw body = Ok (Some sid) /\ Auth.truthy sid = true /\
    sqr = false /\ pk sid = Some k /\ Auth.story_owner t !! k = Some owner /\
    (owner = Auth.id user \/ Auth.role_name user = Some "admin").
Proof.
  unfold Auth.is_story_author_or_admin.
  destruct (Auth.get_current_user _ _ _ _ _) as [user|] eqn:Eu; [| discriminate].
  destruct (Auth.requested_story_id kw body) as [[sid|]|e] eqn:Es; try discriminate.
  destruct (Auth.truthy sid) eqn:Ht; [| discriminate]. simpl.
  destruct sqr; [discriminate |].
  destruct (pk sid) as [k|] eqn:Ek; [| discriminate].
  destruct (Auth.story_owner t !! k) as [owner|] eqn:Eo; [| discriminate].
  intros H. exists user, sid, k, owner. do 6 (split; [reflexivity || assumption |]).
  destruct (owner =? Auth.id user) eqn:Eq; simpl in H.
  - left. apply Z.eqb_eq; exact Eq.
  - right. destruct (Auth.role_name user) as [r|]; [| discriminate].
    destruct (String.eqb r "admin") eqn:Er; [| discriminate]. apply String.eqb_eq in Er. congruence.
Qed.

Lemma story_guard_runs_view_only_for_owner_or_admin_witness :
  Auth.is_story_author_or_admin demo_decode demo_pk false false demo_tables (Some "t5") (Some 0)
    (Ok (JObj [("story_id", JStr "9")])) = Auth.RunView /\
  exists user sid k owner,
    Auth.get_current_user demo_decode demo_pk false demo_tables (Some "t5") = Some user /\
    Auth.requested_story_id (Some 0) (Ok (JObj [("story_id", JStr "9")])) = Ok (Some sid) /\
    Auth.truthy sid = true /\ false = false /\ demo_pk sid = Some k /\
    Auth.story_owner demo_tables !! k = Some owner /\
    (owner = Auth.id user \/ Auth.role_name user = Some "admin").
Proof.
  assert (H : Auth.is_story_author_or_admin demo_decode demo_pk false false demo_tables (Some "t5")
                (Some 0) (Ok (JObj [("story_id", JStr "9")])) = Auth.RunView) by (vm_compute; reflexivity).
  split; [exact H |].
  exact (story_guard_runs_view_only_for_owner_or_admin demo_decode demo_pk false false demo_tables
           (Some "t5") (Some 0) (Ok (JObj [("story_id", JStr "9")])) H).
Defined.

(** X6: for a logged-in user without a role, the guard runs the view on
    the user's own stories but raises ([user.role.name] on [None]) on a
    story of another user, instead of answering 403. *)
Theorem story_guard_roleless_user decode_token pk uqr t cookie kw body user sid k owner :
  Auth.get_current_user decode_token pk uqr t cookie = Some user ->
  Auth.role_name user = None ->
  Auth.requested_story_id kw body = Ok (Some sid) -> Auth.truthy sid = true ->
  pk sid = Some k -> Auth.story_owner t !! k = Some owner ->
  Auth.is_story_author_or_admin decode_token pk uqr false t cookie kw body =
    if owner =? Auth.id user then Auth.RunView
    else Auth.Raised "'NoneType' object has no attribute 'name'".
Proof.
  intros Hu Hr Hs Ht Hk Ho. unfold Auth.is_story_author_or_admin.
  rewrite Hu, Hs, Ht, Hk, Ho. simpl.
  destruct (owner =? Auth.id user); simpl; [reflexivity | rewrite Hr; reflexivity].
Qed.

Lemma story_guard_roleless_user_witness :
  Auth.is_story_author_or_admin demo_decode demo_pk false false
    (Auth.mkTables {[5 := Auth.mkUserRow 5 None]} {[9 := 5; 10 := 6]}) (Some "t5") (Some 10) (Ok JNull) =
  Auth.Raised "'NoneType' object has no attribute 'name'".
Proof.
  apply (story_guard_roleless_user demo_decode demo_pk false
           (Auth.mkTables {[5 := Auth.mkUserRow 5 None]} {[9 := 5; 10 := 6]}) (Some "t5") (Some 10) (Ok JNull)
           (Auth.mkUserRow 5 None) (JNum 10) 10 6); vm_compute; reflexivity.
Defined.

(* ------------------------------------------------------------------ *)
(** ** Who is charged *)

(** X7: a worker run changes no user row but that of the task's own user,
    and changes only that user's balance of the task's credit category
    (image credits for an image task, text credits otherwise), whatever
    fails during the run. *)
Theorem worker_charges_only_its_user json_loads count_tokens t reply s v :
  users (sess s) = users (db s) ->
  users (db (snd (run_task json_loads count_tokens t reply s))) !! v = users (db s) !! v \/
  (v = task_user t /\ exists u x, users (db s) !! v = Some u /\
     users (db (snd (run_task json_loads count_tokens t reply s))) !! v =
       Some (set_credits (task_credit_kind t) x u)).
Proof.
  intros Hs.
  destruct (hoare_apply s (run_task_users_evolve json_loads count_tokens t reply)) as [H _].
  destruct (users_evolve_db _ _ _ _ Hs H v) as [[E | [Hv Hx]] _]; [left; exact E | right; auto].
Qed.

Lemma worker_charges_only_its_user_witness :
  users (sess (chapter_job_state [chapter_row 1])) = users (db (chapter_job_state [chapter_row 1])) /\
  (users (db (snd (run_task no_json word_count (TChapter 7 1 "p" 1 1 50) "x" (chapter_job_state [chapter_row 1])))) !! 1 =
     users (db (chapter_job_state [chapter_row 1])) !! 1 \/
   (1 = task_user (TChapter 7 1 "p" 1 1 50) /\ exists u x,
      users (db (chapter_job_state [chapter_row 1])) !! 1 = Some u /\
      users (db (snd (run_task no_json word_count (TChapter 7 1 "p" 1 1 50) "x" (chapter_job_state [chapter_row 1])))) !! 1 =
        Some (set_credits (task_credit_kind (TChapter 7 1 "p" 1 1 50)) x u))).
Proof.
  assert (H : users (sess (chapter_job_state [chapter_row 1])) = users (db (chapter_job_state [chapter_row 1])))
    by reflexivity.
  split; [exact H |].
  exact (worker_charges_only_its_user no_json word_count (TChapter 7 1 "p" 1 1 50) "x"
           (chapter_job_state [chapter_row 1]) 1 H).
Defined.

(** X8: no generation endpoint changes a user row: the handlers only
    compare the balance with the prediction, and the debit is left to
    the worker. *)
Theorem dispatchers_never_charge c s :
  users (sess s) = users (db s) ->
  users (db (snd (run_api c s))) = users (db s) /\ users (sess (snd (run_api c s))) = users (db s).
Proof.
  intros Hs.
  destruct (hoare_apply s (run_api_users_evolve c CText)) as [H _].
  pose proof (users_evolve_db _ _ _ _ Hs H) as Hv.
  split; apply map_eq; intros v; destruct (Hv v) as [[E | [[] _]] [E' | [[] _]]]; assumption.
Qed.

Lemma dispatchers_never_charge_witness :
  users (sess (idle_state [chapter_row 1])) = users (db (idle_state [chapter_row 1])) /\
  users (db (snd (run_api (CallChapter 1 1 1 "p" 40) (idle_state [chapter_row 1])))) =
    users (db (idle_state [chapter_row 1])) /\
  users (sess (snd (run_api (CallChapter 1 1 1 "p" 40) (idle_state [chapter_row 1])))) =
    users (db (idle_state [chapter_row 1])).
Proof.
  assert (H : users (sess (idle_state [chapter_row 1])) = users (db (idle_state [chapter_row 1])))
    by reflexivity.
  split; [exact H |].
  exact (dispatchers_never_charge (CallChapter 1 1 1 "p" 40) (idle_state [chapter_row 1]) H).
Defined.

(* ------------------------------------------------------------------ *)
(** ** [generate_chapter_task] *)

(** X9: a chapter job whose row exists, on a run with no failing
    external call, saves the reply as that row's content, debits the
    actual cost from the user's text credits (the balance may go
    negative), returns success and releases the lock. *)
Theorem chapter_worker_saves_and_debits count_tokens tid sid prompt n uid pit reply s u c ch :
  faults s = [] -> sess s = db s -> users (db s) !! uid = Some u ->
  calculate_actual_chapter_cost (pricing (db s)) pit (count_tokens reply "o1-mini") = Ok c ->
  List.find (fun ch => bool_decide (chapter_story_id ch = sid /\ chapter_number ch = n))
    (chapters (db s)) = Some ch ->
  fst (generate_chapter_task count_tokens tid sid prompt n uid pit reply s) = Ok RetSuccess /\
  chapters (db (snd (generate_chapter_task count_tokens tid sid prompt n uid pit reply s))) =
    map (set_content (chapter_id ch) reply) (chapters (db s)) /\
  users (db (snd (generate_chapter_task count_tokens tid sid prompt n uid pit reply s))) =
    <[uid := set_credits CText (text_credits u - total_credit_cost c) u]> (users (db s)) /\
  uid ∉ locks (snd (generate_chapter_task count_tokens tid sid prompt n uid pit reply s)).
Proof.
  destruct s as [d ss lk q nt ev ck fs]; cbn [faults sess db]. intros -> -> Hu Hc Hch.
  pose proof (chapter_run count_tokens tid sid prompt n uid pit reply d lk q nt ev ck u c Hu Hc) as H.
  cbv zeta in H. rewrite Hch in H.
  destruct H as (H1 & _ & H3 & H4 & H5 & _). auto.
Qed.

Lemma chapter_worker_saves_and_debits_witness :
  fst (generate_chapter_task word_count 7 1 "p" 1 1 50 "x" (chapter_job_state [chapter_row 1])) = Ok RetSuccess /\
  chapters (db (snd (generate_chapter_task word_count 7 1 "p" 1 1 50 "x" (chapter_job_state [chapter_row 1])))) =
    map (set_content 11 "x") [chapter_row 1] /\
  users (db (snd (generate_chapter_task word_count 7 1 "p" 1 1 50 "x" (chapter_job_state [chapter_row 1])))) =
    <[1 := set_credits CText (100 - 2) (user_with 100 0)]> {[1 := user_with 100 0]} /\
  1 ∉ locks (snd (generate_chapter_task word_count 7 1 "p" 1 1 50 "x" (chapter_job_state [chapter_row 1]))).
Proof.
  exact (chapter_worker_saves_and_debits word_count 7 1 "p" 1 1 50 "x" (chapter_job_state [chapter_row 1])
           (user_with 100 0) small_chapter_actual (chapter_row 1)
           eq_refl eq_refl eq_refl ltac:(vm_compute; reflexivity) ltac:(vm_compute; reflexivity)).
Defined.

(** X10: a chapter job whose row is missing still charges the user: the
    run debits the actual cost, records the job as succeeded with that
    cost and sends "Chapter Generation Successful", then raises on the
    missing row, so the job ends failed (keeping the recorded cost), the
    failure is notified, no chapter changes, and the lock is released. *)
Theorem chapter_worker_missing_row_still_charges count_tokens tid sid prompt n uid pit reply s u c i :
  faults s = [] -> sess s = db s -> users (db s) !! uid = Some u ->
  calculate_actual_chapter_cost (pricing (db s)) pit (count_tokens reply "o1-mini") = Ok c ->
  List.find (fun ch => bool_decide (chapter_story_id ch = sid /\ chapter_number ch = n))
    (chapters (db s)) = None ->
  option_map log_id (List.find (fun l => bool_decide (task_id l = tid
                  /\ log_user_id l = uid /\ generation_type l = GChapter)) (logs (db s))) = Some i ->
  fst (generate_chapter_task count_tokens tid sid prompt n uid pit reply s) =
    Ok (RetError "'NoneType' object has no attribute 'title'") /\
  users (db (snd (generate_chapter_task count_tokens tid sid prompt n uid pit reply s))) =
    <[uid := set_credits CText (text_credits u - total_credit_cost c) u]> (users (db s)) /\
  logs (db (snd (generate_chapter_task count_tokens tid sid prompt n uid pit reply s))) =
    map (fun l => if bool_decide (log_id l = i)
                  then mark_failed "'NoneType' object has no attribute 'title'"
                         (mark_text_succeeded (total_credit_cost c) (input_tokens c) (output_tokens c)
                            "o1-mini" l)
                  else l) (logs (db s)) /\
  chapters (db (snd (generate_chapter_task count_tokens tid sid prompt n uid pit reply s))) = chapters (db s) /\
  events (snd (generate_chapter_task count_tokens tid sid prompt n uid pit reply s)) =
    events s ++ [(uid, "Chapter Generation Successful"); (uid, "Chapter Generation Failed");
                 (uid, "generation_error")] /\
  uid ∉ locks (snd (generate_chapter_task count_tokens tid sid prompt n uid pit reply s)).
Proof.
  destruct s as [d ss lk q nt ev ck fs]; cbn [faults sess db events]. intros -> -> Hu Hc Hch Hi.
  pose proof (chapter_run count_tokens tid sid prompt n uid pit reply d lk q nt ev ck u c Hu Hc) as H.
  cbv zeta in H. rewrite Hch, Hi in H.
  destruct H as (H1 & _ & H3 & H4 & H5 & H6 & H7). auto 7.
Qed.

Lemma chapter_worker_missing_row_still_charges_witness :
  fst (generate_chapter_task word_count 7 1 "p" 1 1 50 "x" (chapter_job_state [])) =
    Ok (RetError "'NoneType' object has no attribute 'title'") /\
  users (db (snd (generate_chapter_task word_count 7 1 "p" 1 1 50 "x" (chapter_job_state [])))) =
    <[1 := set_credits CText (100 - 2) (user_with 100 0)]> {[1 := user_with 100 0]} /\
  logs (db (snd (generate_chapter_task word_count 7 1 "p" 1 1 50 "x" (chapter_job_state [])))) =
    map (fun l => if bool_decide (log_id l = 50)
                  then mark_failed "'NoneType' object has no attribute 'title'"
                         (mark_text_succeeded 2 50 1 "o1-mini" l)
                  else l) [pending_log 1 7 GChapter (PyInt 8) None 50] /\
  chapters (db (snd (generate_chapter_task word_count 7 1 "p" 1 1 50 "x" (chapter_job_state [])))) = [] /\
  events (snd (generate_chapter_task word_count 7 1 "p" 1 1 50 "x" (chapter_job_state []))) =
    [(1, "Chapter Generation Successful"); (1, "Chapter Generation Failed"); (1, "generation_error")] /\
  1 ∉ locks (snd (generate_chapter_task word_count 7 1 "p" 1 1 50 "x" (chapter_job_state []))).
Proof.
  exact (chapter_worker_missing_row_still_charges word_count 7 1 "p" 1 1 50 "x" (chapter_job_state [])
           (user_with 100 0) small_chapter_actual 50
           eq_refl eq_refl eq_refl ltac:(vm_compute; reflexivity) eq_refl eq_refl).
Defined.

(* ------------------------------------------------------------------ *)
(** ** [api_generate_chapter] and [api_generate_all_chapters] *)

(** A queued chapter request names a chapter number between [1 - n] and
    [n]. *)
Lemma chapter_queued_index_range uid sid cn fp itok s t :
  fst (api_generate_chapter uid sid cn fp itok s) = Ok (RQueued t) ->
  1 - Z.of_nat (length (story_chapters sid (sess s))) <= cn <= Z.of_nat (length (story_chapters sid (sess s))).
Proof.
  destruct s as [d ss lk q nt ev ck fs]. cbn [sess].
  unfold api_generate_chapter. api_unfold. run_cases.
  all: try discriminate.
  all: (intros _; cbn in *; rewrite ?orb_false_iff, ?Z.eqb_neq, ?Z.ltb_ge in *; lia).
Qed.

(** X11: when the request passes every other check (no failing external
    call, the user exists and is not blocked by the overdraft guard, the
    story exists, the lock is free, the prediction succeeds and is
    affordable), [api_generate_chapter] queues the job exactly when the
    chapter number lies between [1 - n] and [n], where [n] is the number
    of the story's chapter rows. The number is never checked from below:
    [0] and the negative numbers down to [1 - n] are accepted, through
    Python's negative indexing of [chapters[chapter_number - 1]]. *)
Theorem chapter_dispatch_index_bounds uid sid cn fp itok s u st pr :
  faults s = [] -> users (sess s) !! uid = Some u ->
  last_generation_and_negative (logs (sess s)) u GChapter = false ->
  List.find (fun st => bool_decide (story_id st = sid)) (stories (sess s)) = Some st ->
  uid ∉ locks s ->
  calculate_predicted_chapter_cost (pricing (sess s)) itok = Ok pr ->
  can_spend_credits u CText (PyInt (total_credit_cost pr)) = true ->
  ((exists t, fst (api_generate_chapter uid sid cn fp itok s) = Ok (RQueued t)) <->
   1 - Z.of_nat (length (story_chapters sid (sess s))) <= cn <=
   Z.of_nat (length (story_chapters sid (sess s)))).
Proof.
  intros Hf Hu Hg Hst Hl Hpr Hcs. split.
  { intros [t Ht]. exact (chapter_queued_index_range uid sid cn fp itok s t Ht). }
  revert Hf Hu Hg Hst Hl Hpr Hcs.
  destruct s as [d ss lk q nt ev ck fs]. cbn [faults sess locks].
  intros -> Hu Hg Hst Hl Hpr Hcs.
  set (n := Z.of_nat (length (story_chapters sid ss))). intros Hc.
  unfold api_generate_chapter. api_unfold.
  repeat (cbn -[story_chapters calculate_predicted_chapter_cost can_spend_credits];
          match goal with
          | |- context [decide (?x ∈ @nil nat)] =>
            let Hx := fresh in
            destruct (decide (x ∈ @nil nat)) as [Hx|_]; [exfalso; by apply not_elem_of_nil in Hx |]
          | |- context [decide (uid ∈ lk)] => destruct (decide (uid ∈ lk)); [contradiction |]
          | |- context [users ss !! uid] => rewrite Hu
          | |- context [last_generation_and_negative (logs ss) u GChapter] => rewrite Hg
          | |- context [find (fun st => bool_decide (story_id st = sid)) (stories ss)] => rewrite Hst
          end).
  cbn [sess tick set_locks]; fold n.
  rewrite (proj2 (Z.ltb_ge (cn - 1) (- n))) by lia.
  replace ((n =? 0) || (n <? cn)) with false
    by (symmetry; apply orb_false_iff; split; [apply Z.eqb_neq | apply Z.ltb_ge]; lia).
  repeat (cbn -[story_chapters calculate_predicted_chapter_cost can_spend_credits];
          match goal with
          | |- context [decide (?x ∈ @nil nat)] =>
            let Hx := fresh in
            destruct (decide (x ∈ @nil nat)) as [Hx|_]; [exfalso; by apply not_elem_of_nil in Hx |]
          | |- context [calculate_predicted_chapter_cost (pricing ss) itok] => rewrite Hpr
          | |- context [can_spend_credits u CText (PyInt (total_credit_cost pr))] => rewrite Hcs
          end).
  eexists. reflexivity.
Qed.

Lemma chapter_dispatch_index_bounds_witness :
  fst (api_generate_chapter 1 1 (-1) "p" 40 (idle_state [chapter_row 1; chapter_row 2]))
    = Ok (RQueued (Some 1)) /\
  ((exists t, fst (api_generate_chapter 1 1 (-1) "p" 40 (idle_state [chapter_row 1; chapter_row 2]))
                = Ok (RQueued t)) <->
   1 - Z.of_nat (length (story_chapters 1 (sess (idle_state [chapter_row 1; chapter_row 2])))) <= -1 <=
   Z.of_nat (length (story_chapters 1 (sess (idle_state [chapter_row 1; chapter_row 2]))))).
Proof.
  split; [vm_compute; reflexivity |].
  apply (chapter_dispatch_index_bounds 1 1 (-1) "p" 40 (idle_state [chapter_row 1; chapter_row 2])
           (user_with 100 0) (mkStory 1 3 None) small_chapter_prediction);
    first [reflexivity | vm_compute; reflexivity | set_solver].
Defined.

(** X12: a chapter number below [1 - n] makes [chapters[chapter_number - 1]]
    raise [IndexError] after the lock was taken; that line is outside the
    handler's [try], so the request fails and the user's Generation Lock
    stays set. *)
Theorem chapter_dispatch_negative_index_keeps_lock uid sid cn fp itok s u st :
  faults s = [] -> users (sess s) !! uid = Some u ->
  last_generation_and_negative (logs (sess s)) u GChapter = false ->
  List.find (fun st => bool_decide (story_id st = sid)) (stories (sess s)) = Some st ->
  uid ∉ locks s ->
  1 <= Z.of_nat (length (story_chapters sid (sess s))) ->
  cn < 1 - Z.of_nat (length (story_chapters sid (sess s))) ->
  fst (api_generate_chapter uid sid cn fp itok s) = Err "list index out of range" /\
  uid ∈ locks (snd (api_generate_chapter uid sid cn fp itok s)).
Proof.
  destruct s as [d ss lk q nt ev ck fs]. cbn [faults sess locks].
  intros -> Hu Hg Hst Hl.
  set (n := Z.of_nat (length (story_chapters sid ss))). intros Hn Hc.
  unfold api_generate_chapter. api_unfold.
  repeat (cbn -[story_chapters]; match goal with
          | |- context [decide (?x ∈ @nil nat)] =>
            let Hx := fresh in
            destruct (decide (x ∈ @nil nat)) as [Hx|_]; [exfalso; by apply not_elem_of_nil in Hx |]
          | |- context [decide (uid ∈ lk)] => destruct (decide (uid ∈ lk)); [contradiction |]
          | |- context [users ss !! uid] => rewrite Hu
          | |- context [last_generation_and_negative (logs ss) u GChapter] => rewrite Hg
          | |- context [find (fun st => bool_decide (story_id st = sid)) (stories ss)] => rewrite Hst
          end).
  cbn [sess tick set_locks]; fold n.
  rewrite (proj2 (Z.ltb_lt (cn - 1) (- n))) by lia.
  replace ((n =? 0) || (n <? cn)) with false
    by (symmetry; apply orb_false_iff; split; [apply Z.eqb_neq | apply Z.ltb_ge]; lia).
  cbn. split; [reflexivity | set_solver].
Qed.

Lemma chapter_dispatch_negative_index_keeps_lock_witness :
  fst (api_generate_chapter 1 1 (-1) "p" 40 (idle_state [chapter_row 1])) = Err "list index out of range" /\
  1 ∈ locks (snd (api_generate_chapter 1 1 (-1) "p" 40 (idle_state [chapter_row 1]))).
Proof.
  apply (chapter_dispatch_negative_index_keeps_lock 1 1 (-1) "p" 40 (idle_state [chapter_row 1])
           (user_with 100 0) (mkStory 1 3 None));
    first [reflexivity | vm_compute; lia | set_solver].
Defined.

(** X13: [api_generate_all_chapters] on a story with no chapter rows
    takes the lock and answers "queued" without queueing a job or
    writing a GenerationLog row: no job is left to release the lock, which
    stays set until it expires. *)
Theorem all_chapters_without_chapters_keeps_lock uid sid s u st :
  faults s = [] -> users (sess s) !! uid = Some u -> 0 <= text_credits u ->
  last_generation_and_negative (logs (sess s)) u GChapter = false ->
  List.find (fun st => bool_decide (story_id st = sid)) (stories (sess s)) = Some st ->
  uid ∉ locks s ->
  fst (api_generate_all_chapters uid sid [] s) = Ok (RQueued None) /\
  queue (snd (api_generate_all_chapters uid sid [] s)) = queue s /\
  logs (sess (snd (api_generate_all_chapters uid sid [] s))) = logs (sess s) /\
  uid ∈ locks (snd (api_generate_all_chapters uid sid [] s)).
Proof.
  destruct s as [d ss lk q nt ev ck fs]. cbn [faults sess locks queue].
  intros -> Hu Hc Hg Hst Hl.
  unfold api_generate_all_chapters. api_unfold.
  repeat (cbn; match goal with
          | |- context [decide (?x ∈ @nil nat)] =>
            let Hx := fresh in
            destruct (decide (x ∈ @nil nat)) as [Hx|_]; [exfalso; by apply not_elem_of_nil in Hx |]
          | |- context [decide (uid ∈ lk)] => destruct (decide (uid ∈ lk)); [contradiction |]
          | |- context [users ss !! uid] => rewrite Hu
          | |- context [last_generation_and_negative (logs ss) u GChapter] => rewrite Hg
          | |- context [find (fun st => bool_decide (story_id st = sid)) (stories ss)] => rewrite Hst
          | |- context [0 <=? text_credits u] => rewrite (proj2 (Z.leb_le 0 _) Hc)
          end).
  split; [reflexivity | split; [reflexivity | split; [reflexivity | set_solver]]].
Qed.

Lemma all_chapters_without_chapters_keeps_lock_witness :
  fst (api_generate_all_chapters 1 1 [] (idle_state [])) = Ok (RQueued None) /\
  queue (snd (api_generate_all_chapters 1 1 [] (idle_state []))) = [] /\
  logs (sess (snd (api_generate_all_chapters 1 1 [] (idle_state [])))) = [] /\
  1 ∈ locks (snd (api_generate_all_chapters 1 1 [] (idle_state []))).
Proof.
  apply (all_chapters_without_chapters_keeps_lock 1 1 (idle_state []) (user_with 100 0) (mkStory 1 3 None));
    first [reflexivity | vm_compute; lia | set_solver | vm_compute; discriminate].
Defined.

(* ------------------------------------------------------------------ *)
(** ** [generate_story_arcs_task] *)

(** X14: when the story-arcs reply parses but is not iterable, the loop
    raises after the story's arcs were deleted in the session, and the
    [except] block's commit of the failed job row commits that deletion
    too: the job ends failed with the error, the story has no arcs left,
    no credit is debited, and the failure is notified. *)
Theorem arcs_worker_unlistable_reply_deletes_arcs json_loads count_tokens tid sid prompt uid pit reply s i st j e :
  faults s = [] -> sess s = db s ->
  option_map log_id (List.find (fun l => bool_decide (task_id l = tid
                  /\ log_user_id l = uid /\ generation_type l = GStoryArcs)) (logs (db s))) = Some i ->
  List.find (fun st => bool_decide (story_id st = sid)) (stories (db s)) = Some st ->
  json_loads reply = Some j -> PyJson.iter j = Err e ->
  fst (generate_story_arcs_task json_loads count_tokens tid sid prompt uid pit reply s) = Ok (RetError e) /\
  story_arcs (db (snd (generate_story_arcs_task json_loads count_tokens tid sid prompt uid pit reply s))) =
    filter (fun a => bool_decide (arc_story_id a <> story_id st)) (story_arcs (db s)) /\
  logs (db (snd (generate_story_arcs_task json_loads count_tokens tid sid prompt uid pit reply s))) =
    map (fun l => if bool_decide (log_id l = i) then mark_failed e l else l) (logs (db s)) /\
  users (db (snd (generate_story_arcs_task json_loads count_tokens tid sid prompt uid pit reply s))) =
    users (db s) /\
  events (snd (generate_story_arcs_task json_loads count_tokens tid sid prompt uid pit reply s)) =
    events s ++ [(uid, "Story Arcs Generation Failed"); (uid, "generation_error")].
Proof.
  destruct s as [d ss lk q nt ev ck fs]; cbn [faults sess db events]. intros -> -> Hi Hst Hj He.
  exact (arcs_run json_loads count_tokens tid sid prompt uid pit reply d lk q nt ev ck i st j e Hi Hst Hj He).
Qed.

Lemma arcs_worker_unlistable_reply_deletes_arcs_witness :
  fst (generate_story_arcs_task number_loads word_count 7 1 "p" 1 50 "3" arcs_pending_state) =
    Ok (RetError "object is not iterable") /\
  story_arcs (db (snd (generate_story_arcs_task number_loads word_count 7 1 "p" 1 50 "3" arcs_pending_state))) =
    filter (fun a => bool_decide (arc_story_id a <> 1)) (story_arcs (db arcs_pending_state)) /\
  logs (db (snd (generate_story_arcs_task number_loads word_count 7 1 "p" 1 50 "3" arcs_pending_state))) =
    map (fun l => if bool_decide (log_id l = 50) then mark_failed "object is not iterable" l else l)
      (logs (db arcs_pending_state)) /\
  users (db (snd (generate_story_arcs_task number_loads word_count 7 1 "p" 1 50 "3" arcs_pending_state))) =
    users (db arcs_pending_state) /\
  events (snd (generate_story_arcs_task number_loads word_count 7 1 "p" 1 50 "3" arcs_pending_state)) =
    events arcs_pending_state ++ [(1, "Story Arcs Generation Failed"); (1, "generation_error")].
Proof.
  exact (arcs_worker_unlistable_reply_deletes_arcs number_loads word_count 7 1 "p" 1 50 "3"
           arcs_pending_state 50 (mkStory 1 3 None) (JNum 3) "object is not iterable"
           eq_refl eq_refl eq_refl eq_refl eq_refl eq_refl).
Defined.

(** X15: the admin guard runs the wrapped view exactly for a logged-in
    user whose role is "admin"; a logged-in user without a role makes it
    raise ([user.role.name] on [None]) instead of redirecting. *)
Theorem admin_guard_spec decode_token pk uqr t cookie user :
  (Auth.is_admin decode_token pk uqr t cookie = Auth.RunView <->
   exists u, Auth.get_current_user decode_token pk uqr t cookie = Some u /\
             Auth.role_name u = Some "admin") /\
  (Auth.get_current_user decode_token pk uqr t cookie = Some user -> Auth.role_name user = None ->
   Auth.is_admin decode_token pk uqr t cookie = Auth.Raised "'NoneType' object has no attribute 'name'").
Proof.
  unfold Auth.is_admin. split.
  - destruct (Auth.get_current_user _ _ _ _ _) as [u|].
    + destruct (Auth.role_name u) as [r|] eqn:Er.
      * destruct (String.eqb r "admin") eqn:E.
        -- apply String.eqb_eq in E. subst r. split; [intros _; exists u; auto | reflexivity].
        -- split; [discriminate |]. intros (u' & [= <-] & Hr). rewrite Er in Hr.
           injection Hr as ->. discriminate.
      * split; [discriminate |]. intros (u' & [= <-] & Hr). congruence.
    + split; [discriminate |]. intros (u' & E & _). discriminate.
  - intros -> ->. reflexivity.
Qed.

Lemma admin_guard_spec_witness :
  Auth.is_admin demo_decode demo_pk false
    (Auth.mkTables {[5 := Auth.mkUserRow 5 None]} ∅) (Some "t5") =
  Auth.Raised "'NoneType' object has no attribute 'name'".
Proof.
  apply (admin_guard_spec demo_decode demo_pk false (Auth.mkTables {[5 := Auth.mkUserRow 5 None]} ∅)
           (Some "t5") (Auth.mkUserRow 5 None)); vm_compute; reflexivity.
Defined.
